(** * SuicideMap: the reactive core of [app_unified.py]

    A shallow embedding of the callbacks of the dashboard (band
    classifier, band toggle, map traces, click resolution, detail
    statistics, ranking and animation clock), followed by the theorems
    that settle the specification's claims about them.

    Conventions of the embedding.
    - Python [None] is [None]; a JSON string is a [string]; a JSON array
      is a [list].
    - A rate is a finite float.  Every finite float is a rational
      number and the comparisons of the program agree with the order of
      the rationals, so rates are modelled as [Q]; NaN is outside the
      model.  Of the float operations of the program, [Series.round]
      and the product that sets the range of an axis are modelled
      with the rounding of doubles ([to_double]);
      [Series.mean], whose rounding depends on the order in which the
      installed libraries add the column, is an operation the model
      takes as given ([Series_mean]); the difference of two rates is
      the exact difference, which is what float subtraction returns
      when neither rate is more than twice the other.
    - The module-level dictionaries are finite maps ([gmap]).
    - A callback that can raise returns an [outcome]. *)

From Stdlib Require Import QArith Lqa ZArith Lia String Ascii DecimalString.
From stdpp Require Import gmap strings list sorting.

(** ** Python strings *)

Module PyStr.

(** [sub in s] for strings. *)
Fixpoint contains (sub s : string) : bool :=
  match s with
  | EmptyString => String.prefix sub EmptyString
  | String _ s' => String.prefix sub s || contains sub s'
  end.

(** [s.split(sep)[0]]: the text before the first occurrence of
    [sep], all of [s] when there is none. *)
Fixpoint before (sep s : string) : string :=
  match s with
  | EmptyString => EmptyString
  | String c s' =>
      if String.prefix sep s then EmptyString else String c (before sep s')
  end.

(** [s.replace(old, new)] for a non-empty [old]: occurrences are
    replaced from the left and do not overlap.  [skip] counts the
    characters of a matched occurrence that are still to be dropped. *)
Fixpoint replace_from (old new : string) (skip : nat) (s : string) : string :=
  match s with
  | EmptyString => EmptyString
  | String c s' =>
      match skip with
      | S k => replace_from old new k s'
      | O =>
          if String.prefix old s
          then new +:+ replace_from old new (String.length old - 1) s'
          else String c (replace_from old new 0 s')
      end
  end.

(** With an empty [old] Python puts [new] around every character. *)
Fixpoint interleave (new s : string) : string :=
  match s with
  | EmptyString => new
  | String c s' => new +:+ String c (interleave new s')
  end.

Definition replace (old new s : string) : string :=
  match old with
  | EmptyString => interleave new s
  | String _ _ => replace_from old new 0 s
  end.

(** [str(n)] for an integer. *)
Definition of_int (z : Z) : string := NilZero.string_of_int (Z.to_int z).

(** Truth value of a string. *)
Definition truthy (s : string) : bool :=
  match s with EmptyString => false | String _ _ => true end.

End PyStr.

(** ** Constants and reference tables *)

Definition BAND_ORDER : list string :=
  ["< 10"; "10-15"; "15-20"; "20-25"; "25-30"; "> 30"].


Definition STATE_ABBREV_items : list (string * string) :=
  [("Alabama", "AL"); ("Alaska", "AK"); ("Arizona", "AZ"); ("Arkansas", "AR");
   ("California", "CA"); ("Colorado", "CO"); ("Connecticut", "CT");
   ("Delaware", "DE"); ("District of Columbia", "DC"); ("Florida", "FL");
   ("Georgia", "GA"); ("Hawaii", "HI"); ("Idaho", "ID"); ("Illinois", "IL");
   ("Indiana", "IN"); ("Iowa", "IA"); ("Kansas", "KS"); ("Kentucky", "KY");
   ("Louisiana", "LA"); ("Maine", "ME"); ("Maryland", "MD");
   ("Massachusetts", "MA"); ("Michigan", "MI"); ("Minnesota", "MN");
   ("Mississippi", "MS"); ("Missouri", "MO"); ("Montana", "MT");
   ("Nebraska", "NE"); ("Nevada", "NV"); ("New Hampshire", "NH");
   ("New Jersey", "NJ"); ("New Mexico", "NM"); ("New York", "NY");
   ("North Carolina", "NC"); ("North Dakota", "ND"); ("Ohio", "OH");
   ("Oklahoma", "OK"); ("Oregon", "OR"); ("Pennsylvania", "PA");
   ("Rhode Island", "RI"); ("South Carolina", "SC"); ("South Dakota", "SD");
   ("Tennessee", "TN"); ("Texas", "TX"); ("Utah", "UT"); ("Vermont", "VT");
   ("Virginia", "VA"); ("Washington", "WA"); ("West Virginia", "WV");
   ("Wisconsin", "WI"); ("Wyoming", "WY")].

(** A dict literal or comprehension: the items are inserted from left
    to right, a later item overwriting an earlier one with its key. *)
Definition dict_of_items {V : Type} (items : list (string * V)) : gmap string V :=
  foldl (λ m kv, <[kv.1 := kv.2]> m) ∅ items.

Definition STATE_ABBREV : gmap string string := dict_of_items STATE_ABBREV_items.

Definition BAND_COLORS : gmap string string :=
  dict_of_items
    [("< 10", "#44ce1b"); ("10-15", "#bbdb44"); ("15-20", "#f7e379");
     ("20-25", "#f2a134"); ("25-30", "#e51f1f"); ("> 30", "#8e1f1f")].

(** [{v: k for k, v in STATE_ABBREV.items()}] *)
Definition invert_items (items : list (string * string)) : list (string * string) :=
  (λ kv, (kv.2, kv.1)) <$> items.

Definition ABBREV_TO_STATE : gmap string string :=
  dict_of_items (invert_items STATE_ABBREV_items).

Definition LIGHT_BORDER : string := "#dee2e6".
Definition DARK_BORDER : string := LIGHT_BORDER.
Definition ACCENT_CYAN : string := "#0d6efd".
Definition TEXT_PRIMARY : string := "#212529".

(** Where the label of a state goes: (longitude, latitude), the
    decimal literals of the program taken as rationals. *)
Definition STATE_COORDS_items : list (string * (Q * Q)) :=
  [ ("Alabama", ((-86.8), 32.8));
    ("Alaska", ((-153.5), 64.2));
    ("Arizona", ((-111.7), 34.3));
    ("Arkansas", ((-92.4), 34.9));
    ("California", ((-119.5), 37.2));
    ("Colorado", ((-105.5), 39.0));
    ("Florida", ((-81.7), 28.1));
    ("Georgia", ((-83.4), 32.6));
    ("Hawaii", ((-155.2), 20.5));
    ("Idaho", ((-114.5), 44.4));
    ("Illinois", ((-89.2), 40.0));
    ("Indiana", ((-86.3), 39.9));
    ("Iowa", ((-93.5), 42.0));
    ("Kansas", ((-98.4), 38.5));
    ("Kentucky", ((-85.3), 37.8));
    ("Louisiana", ((-91.9), 31.0));
    ("Maine", ((-69.2), 45.4));
    ("Michigan", ((-85.4), 44.3));
    ("Minnesota", ((-94.3), 46.3));
    ("Mississippi", ((-89.7), 32.7));
    ("Missouri", ((-92.5), 38.3));
    ("Montana", ((-109.6), 47.0));
    ("Nebraska", ((-99.8), 41.5));
    ("Nevada", ((-117.0), 39.5));
    ("New Mexico", ((-106.0), 34.4));
    ("New York", ((-75.5), 43.0));
    ("North Carolina", ((-79.4), 35.5));
    ("North Dakota", ((-100.5), 47.4));
    ("Ohio", ((-82.8), 40.3));
    ("Oklahoma", ((-97.5), 35.5));
    ("Oregon", ((-120.5), 44.0));
    ("Pennsylvania", ((-77.6), 40.9));
    ("South Carolina", ((-80.9), 33.9));
    ("South Dakota", ((-100.2), 44.4));
    ("Tennessee", ((-86.3), 35.8));
    ("Texas", ((-99.3), 31.5));
    ("Utah", ((-111.7), 39.3));
    ("Virginia", ((-78.8), 37.5));
    ("Washington", ((-120.5), 47.4));
    ("West Virginia", ((-80.6), 38.9));
    ("Wisconsin", ((-89.8), 44.6));
    ("Wyoming", ((-107.5), 43.0)) ]%Q.
(** A small state: its own place and the place of its label. *)
Record LabelPlace := { origin : Q * Q; label : Q * Q }.

Definition SMALL_STATES_items : list (string * LabelPlace) :=
  [ ("Connecticut", {| origin := ((-72.7), 41.6); label := ((-64.0), 40.2) |});
    ("Delaware", {| origin := ((-75.5), 39.0); label := ((-64.0), 37.2) |});
    ("District of Columbia", {| origin := ((-77.0), 38.9); label := ((-70.0), 35.5) |});
    ("Maryland", {| origin := ((-76.6), 39.3); label := ((-64.0), 36.0) |});
    ("Massachusetts", {| origin := ((-71.8), 42.2); label := ((-64.0), 42.6) |});
    ("New Hampshire", {| origin := ((-71.5), 43.7); label := ((-64.0), 45.0) |});
    ("New Jersey", {| origin := ((-74.4), 40.1); label := ((-64.0), 38.4) |});
    ("Rhode Island", {| origin := ((-71.5), 41.7); label := ((-64.0), 41.4) |});
    ("Vermont", {| origin := ((-72.6), 44.0); label := ((-64.0), 46.4) |}) ]%Q.

Definition SMALL_STATES : gmap string LabelPlace := dict_of_items SMALL_STATES_items.

(** ** Band classifier *)

Definition get_rate_band (rate : Q) : string :=
  if Qlt_le_dec rate 10 then "< 10"
  else if Qlt_le_dec rate 15 then "10-15"
  else if Qlt_le_dec rate 20 then "15-20"
  else if Qlt_le_dec rate 25 then "20-25"
  else if Qlt_le_dec rate 30 then "25-30"
  else "> 30".

(** The half-open interval of rates the specification gives to a band
    label; a string that is no band has none. *)
Definition band_interval (band : string) (rate : Q) : Prop :=
  if decide (band = "< 10") then (0 <= rate /\ rate < 10)%Q
  else if decide (band = "10-15") then (10 <= rate /\ rate < 15)%Q
  else if decide (band = "15-20") then (15 <= rate /\ rate < 20)%Q
  else if decide (band = "20-25") then (20 <= rate /\ rate < 25)%Q
  else if decide (band = "25-30") then (25 <= rate /\ rate < 30)%Q
  else if decide (band = "> 30") then (30 <= rate)%Q
  else False.

(** ** Active-band toggle

    [triggered] is [ctx.triggered_id]; [current_bands] is the value of
    the [active-bands] store, a JSON array of band labels. *)

Definition legend_id (band : string) : string := "legend-" +:+ band.

Definition toggle_band (triggered : option string) (current_bands : list string)
  : list string :=
  match triggered with
  | Some t =>
      if PyStr.truthy t then
        let band := PyStr.replace "legend-" "" t in
        if decide (band ∈ current_bands) then
          if decide (1 < length current_bands)
          then filter (λ b, b ≠ band) current_bands
          else current_bands
        else current_bands ++ [band]
      else current_bands
  | None => current_bands
  end.

(** The store after a sequence of legend clicks. *)
Definition toggle_bands (clicks : list (option string)) (start : list string)
  : list string :=
  foldl (λ bands t, toggle_band t bands) start clicks.

(** ** Animation clock *)

Definition advance_year (n_intervals : option Z) (current_year : Z)
    (is_disabled : bool) : Z :=
  if is_disabled || bool_decide (n_intervals = None) then current_year
  else if bool_decide (2023 ≤ current_year)%Z then 2000%Z
  else (current_year + 1)%Z.

(** ** Number formatting *)

(** [f"{x:.1f}"]: the value rounded to one decimal, ties to even, with
    the sign of the value kept in front (so a small negative value
    prints as [-0.0]). *)
Definition round_half_even (n : Z) (d : positive) : Z :=
  let k := (n / Z.pos d)%Z in
  let r := (n mod Z.pos d)%Z in
  match (2 * r ?= Z.pos d)%Z with
  | Lt => k
  | Gt => (k + 1)%Z
  | Eq => if Z.even k then k else (k + 1)%Z
  end.

Definition format_1f (x : Q) : string :=
  let tenths := round_half_even (Z.abs (Qnum x) * 10) (Qden x) in
  (if bool_decide (Qnum x < 0)%Z then "-" else "")
  +:+ PyStr.of_int (tenths / 10) +:+ "." +:+ PyStr.of_int (tenths mod 10).

(** The double nearest to [x], ties to the even mantissa: what a
    float operation returns when its exact result is [x].  A double
    has a mantissa of 53 bits; below the normal range the step is
    2^-1074.  Results beyond the largest double are outside the
    model. *)
Definition to_double (x : Q) : Q :=
  let n := Z.abs (Qnum x) in
  let d := Qden x in
  if (n =? 0)%Z then 0%Q else
  let e0 := (Z.log2 n - Z.log2 (Z.pos d))%Z in
  let below :=
    if (0 <=? e0)%Z then (n <? Z.pos d * 2 ^ e0)%Z
    else (n * 2 ^ (- e0) <? Z.pos d)%Z in
  let e := if below then (e0 - 1)%Z else e0 in
  let step := Z.max (e - 52) (-1074) in
  let v :=
    if (0 <=? step)%Z
    then inject_Z (round_half_even n (d * Z.to_pos (2 ^ step)) * 2 ^ step)
    else Qred (round_half_even (n * 2 ^ (- step)) d # Z.to_pos (2 ^ (- step))) in
  if (Qnum x <? 0)%Z then (- v)%Q else v.

(** [numpy.rint]: the nearest integer, ties to even. *)
Definition rint (x : Q) : Z := round_half_even (Qnum x) (Qden x).

(** ** Dataset Store

    One row of [df_suicide_focus], with the columns of the frame. *)
Record RateRecord := {
  State : string;
  Year : Z;
  Rate : Q;
  Region : string;
  Abbrev : string;
  Rate_Band : string
}.

(** A trace of the map figure, with the attributes [update_map] sets;
    an attribute a trace does not use is left empty.  [color] is the
    single colour of the colour scale of a choropleth, the font
    colour of a text trace or the colour of a line. *)
Record Trace := {
  kind : string;
  name : string;
  locations : list string;
  lon : list Q;
  lat : list Q;
  mode : string;
  text : list string;
  color : string;
  line_color : string;
  line_width : Q;
  hoverinfo : string;
  visible : bool
}.

(** [go.Choropleth(...)]; a trace is visible unless told otherwise. *)
Definition Choropleth (locations : list string) (color line_color : string)
    (line_width : Q) (hoverinfo : string) (text : list string)
    (visible : bool) (name : string) : Trace :=
  {| kind := "choropleth"; name := name; locations := locations;
     lon := []; lat := []; mode := ""; text := text; color := color;
     line_color := line_color; line_width := line_width;
     hoverinfo := hoverinfo; visible := visible |}.

(** [go.Scattergeo(...)] *)
Definition Scattergeo (lon lat : list Q) (mode : string) (text : list string)
    (color : string) (line_width : Q) (hoverinfo : string) : Trace :=
  {| kind := "scattergeo"; name := ""; locations := [];
     lon := lon; lat := lat; mode := mode; text := text; color := color;
     line_color := ""; line_width := line_width;
     hoverinfo := hoverinfo; visible := true |}.

(** One point of a [clickData] payload.  An absent key and a null value
    read the same through [point.get]; [customdata], when present, is
    an array whose entries are strings or null. *)
Record Point := {
  customdata : option (list (option string));
  point_text : option string;
  location : option string
}.

(** A callback either returns a value or raises.  Which exception is
    raised is the choice of the library (where a column holds no
    value, pandas 2 raises [KeyError] from [loc] and pandas 3
    [ValueError] from [idxmax]) and is not recorded. *)
Inductive outcome (A : Type) : Type :=
| Returns (a : A)
| Raises.
Arguments Returns {A} a.
Arguments Raises {A}.

(** ** Click resolution

    [triggered] is [ctx.triggered_id], [map_click] the first point of
    the click payload ([None] when there is no payload). *)
Definition handle_state_click (triggered : option string)
    (map_click : option Point) (current_state : option string) : option string :=
  let click_data :=
    if decide (triggered = Some "choropleth-map") then map_click else None in
  match click_data with
  | Some point =>
      match customdata point with
      | Some (c :: _) => c
      | _ =>
          let text := default "" (point_text point) in
          let by_text :=
            if PyStr.contains "<br>" text then
              let state_name := PyStr.before "<br>" text in
              if decide (is_Some (STATE_ABBREV !! state_name))
              then Some state_name else None
            else None in
          match by_text with
          | Some state_name => Some state_name
          | None =>
              match location point with
              | Some loc =>
                  if PyStr.truthy loc then
                    match ABBREV_TO_STATE !! loc with
                    | Some state_name => Some state_name
                    | None => current_state
                    end
                  else current_state
              | None => current_state
              end
          end
      end
  | None => current_state
  end.

(** A selection the specification calls valid: a state name of the
    reference table the click resolution checks against. *)
Definition known_state (s : string) : Prop := is_Some (STATE_ABBREV !! s).

Definition valid_selection (sel : option string) : Prop :=
  match sel with None => True | Some s => known_state s end.

(** The truth value of the store, as the callbacks that read it test
    it ([if not state_name]). *)
Definition holds_state (sel : option string) : bool :=
  match sel with Some s => PyStr.truthy s | None => false end.

(** The three ways a point can fail to name a state. *)
Definition no_usable_customdata (p : Point) : Prop :=
  customdata p = None ∨ customdata p = Some [].

Definition no_state_in_text (p : Point) : Prop :=
  ∀ t, point_text p = Some t →
    ¬ (PyStr.contains "<br>" t = true ∧ known_state (PyStr.before "<br>" t)).


(** Sequencing of the steps of a callback that can raise. *)
Definition outcome_bind {A B : Type} (m : outcome A) (k : A → outcome B)
  : outcome B :=
  match m with
  | Returns a => k a
  | Raises => Raises
  end.

Notation "x ←! m ;; k" := (outcome_bind m (λ x, k))
  (at level 100, m at next level, k at level 200, right associativity,
   format "x  ←!  m ;;  '/' k").

(** A lookup that raises when it finds nothing. *)
Definition locate {A : Type} (o : option A) : outcome A :=
  match o with
  | Some a => Returns a
  | None => Raises
  end.

(** ** The pandas operations the callbacks use

    A column of floats is a [list Q]; a column that can hold NaN is a
    [list (option Q)] with [None] for NaN.  A row is named by its
    position in the frame at hand (the labels of the frame are
    distinct, so a label names one row). *)

Module Pandas.

Definition Qltb (x y : Q) : bool := if Qlt_le_dec x y then true else false.

Section Sort.
Context {A : Type} (le : A → A → bool).

Fixpoint insert_sorted (x : A) (l : list A) : list A :=
  match l with
  | [] => [x]
  | y :: l' => if le x y then x :: l else y :: insert_sorted x l'
  end.

(** [sort_values]: rows ordered by [le], rows that compare equal
    keeping their order. *)
Definition sort_by (l : list A) : list A := foldr insert_sorted [] l.
End Sort.

(** The first position holding the best value of a column, with that
    value; NaN entries are skipped ([skipna=True]).  [better v x]
    says that [v] is strictly better than [x], so that among equal
    values the first one is kept. *)
Fixpoint first_best (better : Q → Q → bool) (col : list (option Q))
  : option (nat * Q) :=
  match col with
  | [] => None
  | o :: col' =>
      let later := prod_map S id <$> first_best better col' in
      match o with
      | None => later
      | Some x =>
          match later with
          | Some (i, v) => if better v x then Some (i, v) else Some (0, x)
          | None => Some (0, x)
          end
      end
  end.

(** [Series.idxmin()] and [Series.min()], [Series.idxmax()] and
    [Series.max()]. *)
Definition idxmin (col : list (option Q)) : option (nat * Q) :=
  first_best (λ v x, Qltb v x) col.

Definition idxmax (col : list (option Q)) : option (nat * Q) :=
  first_best (λ v x, Qltb x v) col.

(** [Series.diff()]: each row minus the row before it, NaN in the
    first row. *)
Definition diff (col : list Q) : list (option Q) :=
  match col with
  | [] => []
  | _ :: col' => None :: zip_with (λ prev cur, Some (cur - prev)%Q) col col'
  end.

(** [Series.rank(ascending=False)] with the default method
    ([average]): the column is sorted from the largest value down,
    the places are numbered from 1, and a value gets the average of
    the places that hold it. *)
Fixpoint place_sum (x : Q) (place : Z) (sorted : list Q) : Z :=
  match sorted with
  | [] => 0
  | y :: l =>
      ((if Qeq_bool y x then place else 0) + place_sum x (place + 1) l)%Z
  end.

Fixpoint count (p : Q → bool) (col : list Q) : Z :=
  match col with
  | [] => 0
  | y :: l => ((if p y then 1 else 0) + count p l)%Z
  end.

Definition rank_descending (col : list Q) : list Q :=
  let sorted := sort_by (λ a b, Qle_bool b a) col in
  (λ x, inject_Z (place_sum x 1 sorted)
        / inject_Z (count (λ y, Qeq_bool y x) sorted))%Q <$> col.

(** [astype(int)] on a float: the fraction is dropped. *)
Definition astype_int (x : Q) : Z := (Qnum x ÷ Z.pos (Qden x))%Z.

End Pandas.

(** The figures of the detail panel. *)
Record StatsReport := {
  min_rate : Q;  min_year : Z;
  max_rate : Q;  max_year : Z;
  avg_rate : Q;
  inc_Change : Q;  inc_Year : Z;
  dec_Change : Q;  dec_Year : Z
}.

Inductive StatsView :=
| Placeholder
| NoData (state_name : string)
| Details (state_name : string) (report : StatsReport).

(** The text of the panel, as [update_state_stats] lays it out. *)
Definition stats_lines (v : StatsView) : list string :=
  match v with
  | Placeholder => ["Click a state on the map to see details"]
  | NoData state_name => ["No data for " +:+ state_name]
  | Details state_name r =>
      [ state_name;
        "Minimum: " +:+ format_1f (min_rate r)
          +:+ " (" +:+ PyStr.of_int (min_year r) +:+ ")";
        "Maximum: " +:+ format_1f (max_rate r)
          +:+ " (" +:+ PyStr.of_int (max_year r) +:+ ")";
        "Average: " +:+ format_1f (avg_rate r);
        "Largest Increase: +" +:+ format_1f (inc_Change r)
          +:+ " (" +:+ PyStr.of_int (inc_Year r - 1) +:+ "→"
          +:+ PyStr.of_int (inc_Year r) +:+ ")";
        "Largest Decrease: " +:+ format_1f (dec_Change r)
          +:+ " (" +:+ PyStr.of_int (dec_Year r - 1) +:+ "→"
          +:+ PyStr.of_int (dec_Year r) +:+ ")" ]
  end.

Section Dashboard.

(** The frame loaded at start-up, rows from 2000 on. *)
Variable df_suicide_focus : list RateRecord.

(** [Series.mean()] on a column of floats: the float sum of the
    column divided by its length.  The sum is rounded at every
    addition, in the order of the installed numpy or bottleneck, so the
    result is near the mean of the rationals but need not be it (nor
    lie between the least and the greatest entry).  The program fixes
    the column, not the rounding: the operation is taken as given. *)
Variable Series_mean : list Q → Q.

Definition rows_of_year (year : Z) : list RateRecord :=
  filter (λ r, Year r = year) df_suicide_focus.

(** *** Map traces *)

Definition hover_full (row : RateRecord) : string :=
  State row +:+ "<br>Rate: " +:+ format_1f (Rate row)
  +:+ " per 100k<br>Region: " +:+ Region row.

Definition hover_filtered (row : RateRecord) : string :=
  State row +:+ " (filtered)".

Definition band_trace (df_year : list RateRecord) (active_bands : list string)
    (band : string) : Trace :=
  let df_band := filter (λ r, Rate_Band r = band) df_year in
  Choropleth (Abbrev <$> df_band) (BAND_COLORS !!! band) DARK_BORDER 1
    "text" (hover_full <$> df_band) (bool_decide (band ∈ active_bands)) band.

(** The grey trace over the states whose band is switched off. *)
Definition filtered_trace (df_year : list RateRecord)
    (active_bands : list string) : list Trace :=
  let df_inactive := filter (λ r, Rate_Band r ∉ active_bands) df_year in
  if decide (0 < length df_inactive) then
    [ Choropleth (Abbrev <$> df_inactive) "#e9ecef" DARK_BORDER 0.5%Q
        "text" (hover_filtered <$> df_inactive) true "Filtered" ]
  else [].

(** The abbreviation of every state with a rate, at its place on the
    map (the small states are labelled apart). *)
Definition label_traces (rate_lookup : gmap string Q) : list Trace :=
  let regular_states :=
    filter (λ sc, SMALL_STATES !! sc.1 = None) STATE_COORDS_items in
  sc ← regular_states;
  match rate_lookup !! sc.1 with
  | Some rate =>
      let abbrev := STATE_ABBREV !!! sc.1 in
      let text_color :=
        if Qlt_le_dec rate 25 then "#212529" else "#ffffff" in
      [ Scattergeo [sc.2.1] [sc.2.2] "text" [abbrev] text_color 0 "skip" ]
  | None => []
  end.

(** A small state gets a leader line and its label at the end of it. *)
Definition small_state_traces (rate_lookup : gmap string Q) : list Trace :=
  sc ← SMALL_STATES_items;
  match rate_lookup !! sc.1 with
  | Some _ =>
      let abbrev := STATE_ABBREV !!! sc.1 in
      [ Scattergeo [(origin sc.2).1; (label sc.2).1]
          [(origin sc.2).2; (label sc.2).2] "lines" [] "#adb5bd" 1 "skip";
        Scattergeo [(label sc.2).1] [(label sc.2).2] "text" [abbrev]
          TEXT_PRIMARY 0 "skip" ]
  | None => []
  end.

(** The outline of the selected state. *)
Definition selected_trace (selected_state : option string) : list Trace :=
  match selected_state with
  | Some sel =>
      if PyStr.truthy sel then
        match STATE_ABBREV !! sel with
        | Some abbrev =>
            [ Choropleth [abbrev] "rgba(0,0,0,0)" ACCENT_CYAN 3 "skip" [] true "" ]
        | None => []
        end
      else []
  | None => []
  end.

(** The traces of the figure [update_map] returns, in the order they
    are added. *)
Definition update_map (year : Z) (active_bands : list string)
    (selected_state : option string) : list Trace :=
  let df_year := rows_of_year year in
  let rate_lookup := dict_of_items ((λ r, (State r, Rate r)) <$> df_year) in
  (band_trace df_year active_bands <$> BAND_ORDER)
  ++ filtered_trace df_year active_bands
  ++ label_traces rate_lookup
  ++ small_state_traces rate_lookup
  ++ selected_trace selected_state.

(** What the pointer can show: the (location, text) pairs of the
    traces that are drawn and take part in hovering. *)
Definition shown_hover (fig : list Trace) : list (string * string) :=
  t ← fig;
  if visible t && bool_decide (hoverinfo t = "text")
  then zip (locations t) (text t) else [].

(** *** Detail statistics *)

Definition state_series (state_name : string) : list RateRecord :=
  Pandas.sort_by (λ a b, (Year a <=? Year b)%Z)
    (filter (λ r, State r = state_name) df_suicide_focus).

Definition update_state_stats (state_name : option string)
  : outcome StatsView :=
  match state_name with
  | None => Returns Placeholder
  | Some state_name =>
      if negb (PyStr.truthy state_name) then Returns Placeholder else
      let df_state := state_series state_name in
      match df_state with
      | [] => Returns (NoData state_name)
      | _ :: _ =>
          let rate := Rate <$> df_state in
          lo ←! locate (Pandas.idxmin (Some <$> rate));;
          hi ←! locate (Pandas.idxmax (Some <$> rate));;
          let avg := Series_mean rate in
          row_lo ←! locate (df_state !! lo.1);;
          row_hi ←! locate (df_state !! hi.1);;
          let change := Pandas.diff rate in
          inc ←! locate (Pandas.idxmax change);;
          dec ←! locate (Pandas.idxmin change);;
          row_inc ←! locate (df_state !! inc.1);;
          row_dec ←! locate (df_state !! dec.1);;
          Returns (Details state_name
            {| min_rate := lo.2;  min_year := Year row_lo;
               max_rate := hi.2;  max_year := Year row_hi;
               avg_rate := avg;
               inc_Change := inc.2;  inc_Year := Year row_inc;
               dec_Change := dec.2;  dec_Year := Year row_dec |})
      end
  end.

(** *** Ranking *)

Definition update_ranking (state_name : option string) (year : Z) : string :=
  match state_name with
  | None => ""
  | Some state_name =>
      if negb (PyStr.truthy state_name) then "" else
      let df_year := rows_of_year year in
      let Rank := Pandas.astype_int <$> Pandas.rank_descending (Rate <$> df_year) in
      let rank := snd <$> filter (λ p, State p.1 = state_name) (zip df_year Rank) in
      match rank with
      | rank0 :: _ =>
          "Rank in " +:+ PyStr.of_int year +:+ ": #" +:+ PyStr.of_int rank0
          +:+ " of " +:+ PyStr.of_int (Z.of_nat (length df_year))
      | [] => ""
      end
  end.

End Dashboard.

(** ** Quantities the specification speaks of *)

Section Quantities.
Variable df_suicide_focus : list RateRecord.

(** The row of a state in a year (the first one, should the frame
    hold several). *)
Definition state_row (state_name : string) (year : Z) : option RateRecord :=
  head (filter (λ r, State r = state_name) (rows_of_year df_suicide_focus year)).

(** The number of rates of the year strictly greater than [x], and
    the number equal to [x]. *)
Definition greater_in_year (x : Q) (year : Z) : Z :=
  Pandas.count (λ y, Pandas.Qltb x y) (Rate <$> rows_of_year df_suicide_focus year).

Definition tied_in_year (x : Q) (year : Z) : Z :=
  Pandas.count (λ y, Qeq_bool y x) (Rate <$> rows_of_year df_suicide_focus year).

(** The line [update_ranking] prints for rank [rank] in [year]. *)
Definition ranking_line (year rank : Z) : string :=
  "Rank in " +:+ PyStr.of_int year +:+ ": #" +:+ PyStr.of_int rank
  +:+ " of "
  +:+ PyStr.of_int (Z.of_nat (length (rows_of_year df_suicide_focus year))).

End Quantities.

(** The detail statistics, in the words of the specification.  The
    series has consecutive years when each row is one year after the
    row before it. *)
Definition consecutive_years (s : list RateRecord) : Prop :=
  ∀ i prev cur, s !! i = Some prev → s !! S i = Some cur →
    Year cur = (Year prev + 1)%Z.



(** [d] is the change of [year]: the rate of [year] minus the rate of
    the year before. *)
Definition change_in (s : list RateRecord) (year : Z) (d : Q) : Prop :=
  ∃ prev cur, prev ∈ s ∧ cur ∈ s ∧ Year cur = year
              ∧ Year prev = (year - 1)%Z ∧ d = (Rate cur - Rate prev)%Q.



(** ** The last step of click resolution *)

(** What [handle_state_click] returns once customdata and text have
    named no state: the state of the location, else the prior
    selection. *)
Definition by_location (p : Point) (current_state : option string)
  : option string :=
  match location p with
  | Some loc =>
      if PyStr.truthy loc then
        match ABBREV_TO_STATE !! loc with
        | Some state_name => Some state_name
        | None => current_state
        end
      else current_state
  | None => current_state
  end.

(** ** Legend styles *)

(** A value of a style dictionary. *)
Inductive StyleValue :=
| StyleStr (s : string)
| StyleNum (x : Q).

(** The style of the legend entry of [band], the keys in the order the
    dictionary is written. *)
Definition legend_style (active_bands : list string) (band : string)
  : list (string * StyleValue) :=
  let is_active := bool_decide (band ∈ active_bands) in
  let text_color :=
    if negb is_active then "#212529"
    else if bool_decide (band ∈ ["< 10"; "10-15"; "15-20"; "20-25"])
         then "#000" else "#fff" in
  [ ("display", StyleStr "inline-block");
    ("padding", StyleStr "8px 14px");
    ("margin", StyleStr "4px");
    ("borderRadius", StyleStr "8px");
    ("cursor", StyleStr "pointer");
    ("fontSize", StyleStr "13px");
    ("fontWeight", StyleStr "500");
    ("backgroundColor",
       StyleStr (if is_active then BAND_COLORS !!! band else "#dee2e6"));
    ("color", StyleStr text_color);
    ("opacity", StyleNum (if is_active then 1 else 0.4)%Q);
    ("transition", StyleStr "all 0.2s ease") ].

Definition update_legend_styles (active_bands : list string)
  : list (list (string * StyleValue)) :=
  legend_style active_bands <$> BAND_ORDER.

(** ** Play button and speed *)

Definition toggle_play (n_clicks : option Z) (is_disabled : bool)
  : string * bool :=
  match n_clicks with
  | None => ("▶ Play", true)
  | Some _ => if is_disabled then ("⏸ Pause", false) else ("▶ Play", true)
  end.

Definition update_speed (speed : Z) : Z := speed.

(** The year after a run of ticks of a running clock, [n_intervals]
    counting up from [first]. *)
Fixpoint run_ticks (ticks : nat) (first : Z) (current_year : Z) : Z :=
  match ticks with
  | O => current_year
  | S k => run_ticks k (first + 1) (advance_year (Some first) current_year false)
  end.

(** ** Trend and regional charts *)

Definition TEXT_SECONDARY : string := "#6c757d".

(** One row of [df_usa_focus], the national series. *)
Record UsaRecord := {
  usa_State : string;
  usa_Year : Z;
  usa_Rate : Q
}.

(** A line of the trend chart. *)
Record Scatter := {
  scatter_x : list Z;
  scatter_y : list Q;
  scatter_mode : string;
  scatter_name : string;
  scatter_color : string;
  scatter_dash : string;
  scatter_width : Q
}.

(** The figure of the trend chart: its annotations, its lines, the
    range of the rate axis when one is set, and whether the axes are
    drawn. *)
Record TrendFigure := {
  trend_annotations : list string;
  trend_traces : list Scatter;
  trend_yaxis_range : option (Q * Q);
  trend_axes_visible : bool
}.

(** The bars of the regional chart. *)
Record Bar := {
  bar_x : list Q;
  bar_y : list string;
  bar_marker_color : list string;
  bar_text : list Q
}.

Record RegionalFigure := {
  regional_annotations : list string;
  regional_traces : list Bar;
  regional_title : option string;
  regional_xaxis_range : option (Q * Q)
}.

(** [Series.round(1)], as numpy rounds: the float is multiplied by
    10, brought to the nearest integer and divided by 10, the product
    and the quotient being rounded to doubles. *)
Definition round_1 (x : Q) : Q :=
  to_double (inject_Z (rint (to_double (x * 10))) / 10).

Section Charts.

Variable df_suicide_focus : list RateRecord.
Variable df_usa_focus : list UsaRecord.

Definition update_state_trend (state_name : option string) : TrendFigure :=
  let placeholder :=
    {| trend_annotations := ["Select a state"]; trend_traces := [];
       trend_yaxis_range := None; trend_axes_visible := false |} in
  match state_name with
  | None => placeholder
  | Some state_name =>
      if negb (PyStr.truthy state_name) then placeholder else
      let df_state := filter (λ r, State r = state_name) df_suicide_focus in
      {| trend_annotations := [];
         trend_traces :=
           [ {| scatter_x := usa_Year <$> df_usa_focus;
                scatter_y := usa_Rate <$> df_usa_focus;
                scatter_mode := "lines"; scatter_name := "US Average";
                scatter_color := TEXT_SECONDARY; scatter_dash := "dash";
                scatter_width := 2 |};
             {| scatter_x := Year <$> df_state;
                scatter_y := Rate <$> df_state;
                scatter_mode := "lines+markers"; scatter_name := state_name;
                scatter_color := ACCENT_CYAN; scatter_dash := "";
                scatter_width := 3 |} ];
         trend_yaxis_range := Some (0, 35)%Q;
         trend_axes_visible := true |}
  end.

(** [sort_values("Rate")] leaves the order of rows with equal rates
    open; the model keeps them in the order of the frame. *)
Definition update_regional_chart (state_name : option string) (year : Z)
  : RegionalFigure :=
  let placeholder :=
    {| regional_annotations := ["Select a state"]; regional_traces := [];
       regional_title := None; regional_xaxis_range := None |} in
  let empty :=
    {| regional_annotations := []; regional_traces := [];
       regional_title := None; regional_xaxis_range := None |} in
  match state_name with
  | None => placeholder
  | Some state_name =>
      if negb (PyStr.truthy state_name) then placeholder else
      let state_data :=
        filter (λ r, State r = state_name ∧ Year r = year) df_suicide_focus in
      match state_data with
      | [] => empty
      | first :: _ =>
          let region := Region first in
          let df_region :=
            Pandas.sort_by (λ a b, Qle_bool (Rate a) (Rate b))
              (filter (λ r, Region r = region ∧ Year r = year) df_suicide_focus) in
          let colors :=
            (λ r, if decide (State r = state_name) then ACCENT_CYAN else "#adb5bd")
              <$> df_region in
          let max_rate :=
            default 0%Q (snd <$> Pandas.idxmax (Some <$> (Rate <$> df_region))) in
          {| regional_annotations := [];
             regional_traces :=
               [ {| bar_x := Rate <$> df_region;
                    bar_y := State <$> df_region;
                    bar_marker_color := colors;
                    bar_text := round_1 <$> (Rate <$> df_region) |} ];
             regional_title :=
               Some (region +:+ " (" +:+ PyStr.of_int year +:+ ")");
             regional_xaxis_range :=
               Some (0, to_double (max_rate * to_double 1.15))%Q |}
      end
  end.

End Charts.

(** ** Loading the frames

    [load_suicide_rates] from the point where the table read from the
    file has its [State] and [Region_Code] columns: a row holds the
    name of the state, the region code found in its label (if any) and
    one rate per year column. *)

Definition REGION_NAMES : gmap string string :=
  dict_of_items
    [("NE", "New England"); ("MA", "Mid-Atlantic"); ("ENC", "East North Central");
     ("WNC", "West North Central"); ("SA", "South Atlantic");
     ("ESC", "East South Central"); ("WSC", "West South Central");
     ("M", "Mountain"); ("P", "Pacific")].

Record WideRow := {
  wide_State : string;
  wide_Region_Code : option string;
  wide_cell : Z → Q
}.

(** A row of [df_long]; [None] is the NaN that [Series.map] leaves
    where the dictionary has no entry. *)
Record LongRow := {
  long_State : string;
  long_Region_Code : option string;
  long_Year : Z;
  long_Rate : Q;
  long_Region : option string;
  long_Abbrev : option string;
  long_Rate_Band : string
}.

(** [range(1990, 2024)] *)
Definition year_columns : list Z := seqZ 1990 34.

(** The row [melt] makes of a row of the table and a year column,
    with the derived columns. *)
Definition long_row (w : WideRow) (year : Z) : LongRow :=
  {| long_State := wide_State w;
     long_Region_Code := wide_Region_Code w;
     long_Year := year;
     long_Rate := wide_cell w year;
     long_Region := wide_Region_Code w ≫= (REGION_NAMES !!.);
     long_Abbrev := STATE_ABBREV !! wide_State w;
     long_Rate_Band := get_rate_band (wide_cell w year) |}.

(** [melt] stacks the year columns one after the other, each with all
    the rows of the table. *)
Definition melt_states (df_states : list WideRow) : list LongRow :=
  year ← year_columns; (λ w, long_row w year) <$> df_states.

Definition melt_usa (df_usa : list WideRow) : list UsaRecord :=
  year ← year_columns;
  (λ w, {| usa_State := wide_State w; usa_Year := year;
           usa_Rate := wide_cell w year |}) <$> df_usa.

Definition load_suicide_rates (df : list WideRow)
  : list LongRow * list UsaRecord :=
  let df_states := filter (λ w, wide_State w ≠ "U.S.A.") df in
  let df_usa := filter (λ w, wide_State w = "U.S.A.") df in
  (melt_states df_states, melt_usa df_usa).

(** The two frames the callbacks read: the rows from 2000 on. *)
Definition suicide_focus (df : list WideRow) : list LongRow :=
  filter (λ r, (2000 ≤ long_Year r)%Z) (load_suicide_rates df).1.

Definition usa_focus (df : list WideRow) : list UsaRecord :=
  filter (λ r, (2000 ≤ usa_Year r)%Z) (load_suicide_rates df).2.

(** A row as the callbacks read it; they are modelled over rows whose
    [Region] and [Abbrev] are not NaN. *)
Definition as_record (r : LongRow) : option RateRecord :=
  region ← long_Region r;
  abbrev ← long_Abbrev r;
  Some {| State := long_State r; Year := long_Year r; Rate := long_Rate r;
          Region := region; Abbrev := abbrev;
          Rate_Band := long_Rate_Band r |}.

(** ** Example data *)

Definition example_row (state abbrev : string) (year : Z) (rate : Q) : RateRecord :=
  {| State := state; Year := year; Rate := rate;
     Region := "West South Central"; Abbrev := abbrev;
     Rate_Band := get_rate_band rate |}.

(** A float mean for the examples: the column added from left to
    right, every sum rounded to a double, and divided by its length. *)
Definition mean_left_to_right (col : list Q) : Q :=
  to_double (foldl (λ acc x, to_double (acc + x)) 0 col
             / inject_Z (Z.of_nat (length col)))%Q.

(** The three-year series of the specification. *)
Definition three_years : list RateRecord :=
  [ example_row "Texas" "TX" 2001 12;
    example_row "Ohio" "OH" 2001 14;
    example_row "Texas" "TX" 2002 15;
    example_row "Ohio" "OH" 2002 14;
    example_row "Texas" "TX" 2003 11;
    example_row "Ohio" "OH" 2003 13 ].

(** A table of two states and the national row, the rates moving by
    a tenth a year. *)
Definition example_table : list WideRow :=
  [ {| wide_State := "Texas"; wide_Region_Code := Some "WSC";
       wide_cell := λ year, (inject_Z (year - 1900) / 10)%Q |};
    {| wide_State := "U.S.A."; wide_Region_Code := None;
       wide_cell := λ year, (inject_Z (year - 1890) / 10)%Q |};
    {| wide_State := "Ohio"; wide_Region_Code := Some "ENC";
       wide_cell := λ year, (inject_Z (2100 - year) / 10)%Q |} ].

(** Three states with the same, highest, rate and one below them. *)
Definition tied_year : list RateRecord :=
  [ example_row "Texas" "TX" 2001 12;
    example_row "Oklahoma" "OK" 2001 12;
    example_row "Arkansas" "AR" 2001 12;
    example_row "Louisiana" "LA" 2001 11.5%Q ].

(** * Properties *)

(** ** Band classifier *)

Lemma get_rate_band_in_order (rate : Q) : get_rate_band rate ∈ BAND_ORDER.
Proof.
  unfold get_rate_band, BAND_ORDER.
  repeat (destruct (Qlt_le_dec _ _); [set_solver|]); set_solver.
Qed.

Lemma get_rate_band_interval (rate : Q) (band : string) :
  (0 <= rate)%Q → band_interval band rate ↔ get_rate_band rate = band.
Proof.
  intros Hpos. unfold get_rate_band, band_interval.
  repeat (destruct (Qlt_le_dec _ _));
    repeat (case_decide; subst);
    split; intros; try discriminate; try congruence; try lra; tauto.
Qed.

(** C5. The classifier tests the thresholds 10, 15, 20, 25, 30 in
    ascending order: on a non-negative rate it returns the band whose
    half-open interval holds the rate and no other, so the six bands
    partition the non-negative rates; it gives equal rates the same
    band; 9.99 is in the lowest band (labelled [< 10] in the program),
    10 in [10-15], 29.99 in [25-30] and 30 in the top band (labelled
    [> 30]). *)
Theorem get_rate_band_partition :
  (∀ rate band, (0 <= rate)%Q →
     band_interval band rate ↔ get_rate_band rate = band)
  ∧ (∀ rate, get_rate_band rate ∈ BAND_ORDER)
  ∧ (∀ r1 r2, (r1 == r2)%Q → get_rate_band r1 = get_rate_band r2)
  ∧ get_rate_band 9.99%Q = "< 10"
  ∧ get_rate_band 10 = "10-15"
  ∧ get_rate_band 29.99%Q = "25-30"
  ∧ get_rate_band 30 = "> 30".
Proof.
  split; [intros; by apply get_rate_band_interval|].
  split; [apply get_rate_band_in_order|].
  split; [|by vm_compute].
  intros r1 r2 Heq. unfold get_rate_band.
  repeat (destruct (Qlt_le_dec r1 _); destruct (Qlt_le_dec r2 _);
          try reflexivity; try lra).
Qed.

Lemma get_rate_band_partition_witness :
  (0 <= 999 # 100)%Q ∧
  (band_interval "< 10" 9.99%Q ↔ get_rate_band 9.99%Q = "< 10").
Proof.
  split; [by vm_compute|].
  apply (proj1 get_rate_band_partition 9.99%Q "< 10").
  by vm_compute.
Defined.

(** ** Animation clock *)

(** C8. With the year in 2000..2023, a tick while the clock runs moves
    the year on by one, from 2023 back to 2000, so the year stays in
    2000..2023; a tick while the clock is stopped leaves it as it is. *)
Theorem advance_year_tick (year n : Z) :
  (2000 ≤ year ≤ 2023)%Z →
  advance_year (Some n) year false
    = (if decide (year = 2023) then 2000 else year + 1)%Z
  ∧ (2000 ≤ advance_year (Some n) year false ≤ 2023)%Z
  ∧ (∀ n_intervals, advance_year n_intervals year true = year).
Proof.
  intros Hy. unfold advance_year. simpl.
  repeat split; try done; repeat case_bool_decide; repeat case_decide; lia.
Qed.

Lemma advance_year_tick_witness :
  (2000 ≤ 2023 ≤ 2023)%Z ∧ advance_year (Some 7%Z) 2023 false = 2000%Z
  ∧ advance_year (Some 7%Z) 2010 false = 2011%Z.
Proof.
  split; [lia|]. split.
  - apply (advance_year_tick 2023 7). lia.
  - apply (advance_year_tick 2010 7). lia.
Defined.

(** ** Active-band toggle *)

Lemma replace_legend_id (band : string) :
  band ∈ BAND_ORDER → PyStr.replace "legend-" "" (legend_id band) = band.
Proof.
  unfold BAND_ORDER. rewrite !elem_of_cons, elem_of_nil.
  intros H. repeat (destruct H as [->|H]; [reflexivity|]). done.
Qed.

(** What a click on the legend entry of [band] does to the store. *)
Lemma toggle_band_legend (band : string) (bands : list string) :
  band ∈ BAND_ORDER →
  toggle_band (Some (legend_id band)) bands =
    if decide (band ∈ bands) then
      if decide (1 < length bands) then filter (λ b, b ≠ band) bands else bands
    else bands ++ [band].
Proof.
  intros Hb. unfold toggle_band.
  replace (PyStr.truthy (legend_id band)) with true by reflexivity.
  cbv zeta. by rewrite (replace_legend_id band Hb).
Qed.

Lemma filter_other_nonempty (band : string) (bands : list string) :
  NoDup bands → 1 < length bands → filter (λ b, b ≠ band) bands ≠ [].
Proof.
  intros Hnd Hlen.
  destruct bands as [|a [|b rest]]; simpl in Hlen; try lia.
  assert (a ≠ b) as Hab.
  { apply NoDup_cons in Hnd as [Hnotin _]. set_solver. }
  destruct (decide (a = band)) as [->|Ha].
  - intros Hnil.
    assert (b ∈ filter (λ x, x ≠ band) (band :: b :: rest)) as Hin.
    { apply list_elem_of_filter. split; [congruence|set_solver]. }
    rewrite Hnil in Hin. by apply elem_of_nil in Hin.
  - intros Hnil.
    assert (a ∈ filter (λ x, x ≠ band) (a :: b :: rest)) as Hin.
    { apply list_elem_of_filter. split; [done|set_solver]. }
    rewrite Hnil in Hin. by apply elem_of_nil in Hin.
Qed.

(** A toggle keeps a store that is non-empty and free of duplicates
    that way, whatever triggered it. *)
Lemma toggle_band_keeps (t : option string) (bands : list string) :
  bands ≠ [] → NoDup bands → toggle_band t bands ≠ [] ∧ NoDup (toggle_band t bands).
Proof.
  intros Hne Hnd. unfold toggle_band.
  destruct t as [t|]; [|done].
  destruct (PyStr.truthy t); [|done]. cbv zeta.
  repeat case_decide; try done.
  - split; [by apply filter_other_nonempty|by apply NoDup_filter].
  - split; [by destruct bands|].
    apply NoDup_app. split_and!; [done| |apply NoDup_singleton].
    intros x Hx ->%list_elem_of_singleton. done.
Qed.

Lemma toggle_bands_keep (clicks : list (option string)) (bands : list string) :
  bands ≠ [] → NoDup bands →
  toggle_bands clicks bands ≠ [] ∧ NoDup (toggle_bands clicks bands).
Proof.
  revert bands. induction clicks as [|t clicks IH]; intros bands Hne Hnd; [done|].
  simpl. destruct (toggle_band_keeps t bands Hne Hnd) as [Hne' Hnd'].
  by apply IH.
Qed.

Lemma BAND_ORDER_NoDup : NoDup BAND_ORDER.
Proof. compute_done. Qed.

(** C4. On a non-empty store without repeated bands, a click on the
    legend entry of band [b] removes [b] when it is active together
    with another band, leaves the store as it is when [b] is the only
    active band, and adds [b] when it is not active; the store is
    again non-empty.  Hence no sequence of clicks, starting from the
    six bands, empties the store. *)
Theorem toggle_band_never_empty (bands : list string) (b : string) :
  bands ≠ [] → NoDup bands → b ∈ BAND_ORDER →
  (b ∈ bands → 1 < length bands →
     ∀ x, x ∈ toggle_band (Some (legend_id b)) bands ↔ x ∈ bands ∧ x ≠ b)
  ∧ (bands = [b] → toggle_band (Some (legend_id b)) bands = bands)
  ∧ (b ∉ bands → ∀ x, x ∈ toggle_band (Some (legend_id b)) bands ↔ x ∈ bands ∨ x = b)
  ∧ toggle_band (Some (legend_id b)) bands ≠ []
  ∧ NoDup (toggle_band (Some (legend_id b)) bands)
  ∧ (∀ clicks, toggle_bands clicks BAND_ORDER ≠ []).
Proof.
  intros Hne Hnd Hb. rewrite (toggle_band_legend b bands Hb).
  split_and!.
  - intros Hin Hlen x. rewrite decide_True by done. rewrite decide_True by done.
    rewrite list_elem_of_filter. tauto.
  - intros ->. rewrite decide_True by (by left).
    rewrite decide_False by (simpl; lia). done.
  - intros Hnotin x. rewrite decide_False by done.
    by rewrite elem_of_app, list_elem_of_singleton.
  - rewrite <- (toggle_band_legend b bands Hb). by apply toggle_band_keeps.
  - rewrite <- (toggle_band_legend b bands Hb). by apply toggle_band_keeps.
  - intros clicks. apply toggle_bands_keep; [done|apply BAND_ORDER_NoDup].
Qed.

Lemma toggle_band_never_empty_witness :
  toggle_band (Some (legend_id "< 10")) ["< 10"] = ["< 10"]
  ∧ toggle_band (Some (legend_id "< 10")) ["< 10"] ≠ [].
Proof.
  assert (["< 10"] ≠ ([] : list string)) as Hne by done.
  assert (NoDup ["< 10"]) as Hnd by apply NoDup_singleton.
  assert ("< 10" ∈ BAND_ORDER) as Hb by compute_done.
  destruct (toggle_band_never_empty ["< 10"] "< 10" Hne Hnd Hb)
    as (_ & Hsole & _ & Hnonempty & _).
  split; [by apply Hsole|exact Hnonempty].
Defined.

Lemma filter_other_app_Permutation (band : string) (bands : list string) :
  NoDup bands → band ∈ bands → filter (λ b, b ≠ band) bands ++ [band] ≡ₚ bands.
Proof.
  induction bands as [|a bands IH]; intros Hnd Hin; [by apply elem_of_nil in Hin|].
  apply NoDup_cons in Hnd as [Ha Hnd].
  destruct (decide (a = band)) as [->|Hne].
  - rewrite filter_cons_False by (intros ?; done).
    assert (filter (λ b, b ≠ band) bands = bands) as ->.
    { clear IH Hin Hnd. induction bands as [|c bands IH]; [done|].
      rewrite filter_cons_True by set_solver. f_equal. apply IH. set_solver. }
    by rewrite Permutation_app_comm.
  - rewrite filter_cons_True by done. simpl. f_equiv.
    apply IH; [done|].
    apply elem_of_cons in Hin as [?|?]; [congruence|done].
Qed.

(** C9. From the six active bands, two clicks on the same legend entry
    bring back the six bands: the store holds the same bands as before
    (as a list it is a rearrangement of the original, the band coming
    back at the end). *)
Theorem toggle_band_twice (b : string) :
  b ∈ BAND_ORDER →
  toggle_band (Some (legend_id b)) (toggle_band (Some (legend_id b)) BAND_ORDER)
    ≡ₚ BAND_ORDER
  ∧ (∀ x, x ∈ toggle_band (Some (legend_id b))
                (toggle_band (Some (legend_id b)) BAND_ORDER)
          ↔ x ∈ BAND_ORDER).
Proof.
  intros Hb.
  assert (toggle_band (Some (legend_id b))
            (toggle_band (Some (legend_id b)) BAND_ORDER) ≡ₚ BAND_ORDER) as Hperm.
  { rewrite (toggle_band_legend b BAND_ORDER Hb).
    rewrite decide_True by done.
    rewrite decide_True by (simpl; lia).
    rewrite (toggle_band_legend b _ Hb).
    rewrite decide_False by (rewrite list_elem_of_filter; tauto).
    apply filter_other_app_Permutation; [apply BAND_ORDER_NoDup|done]. }
  split; [done|]. intros x. by rewrite Hperm.
Qed.

Lemma toggle_band_twice_witness :
  "15-20" ∈ BAND_ORDER
  ∧ toggle_band (Some (legend_id "15-20"))
      (toggle_band (Some (legend_id "15-20")) BAND_ORDER) ≡ₚ BAND_ORDER.
Proof.
  assert ("15-20" ∈ BAND_ORDER) as Hb by compute_done.
  split; [exact Hb|]. exact (proj1 (toggle_band_twice "15-20" Hb)).
Defined.

(** ** Reference tables *)

Lemma dict_of_items_from (items : list (string * string))
    (m : gmap string string) (k v : string) :
  foldl (λ m kv, <[kv.1 := kv.2]> m) m items !! k = Some v →
  (k, v) ∈ items ∨ m !! k = Some v.
Proof.
  revert m. induction items as [|[k' v'] items IH]; intros m Hlook; [by right|].
  simpl in Hlook. apply IH in Hlook as [Hin|Hlook].
  - left. by right.
  - destruct (decide (k' = k)) as [->|Hne].
    + rewrite lookup_insert_eq in Hlook. injection Hlook as ->. left. by left.
    + rewrite lookup_insert_ne in Hlook by done. by right.
Qed.

Lemma dict_of_items_elem (items : list (string * string)) (k v : string) :
  dict_of_items items !! k = Some v → (k, v) ∈ items.
Proof.
  intros Hlook. apply dict_of_items_from in Hlook as [Hin|Hlook]; [done|].
  by rewrite lookup_empty in Hlook.
Qed.

Lemma dict_of_items_key (items : list (string * string))
    (m : gmap string string) (k : string) :
  k ∈ items.*1 ∨ is_Some (m !! k) →
  is_Some (foldl (λ m kv, <[kv.1 := kv.2]> m) m items !! k).
Proof.
  revert m. induction items as [|[k' v'] items IH]; intros m Hk.
  - destruct Hk as [Hk|Hk]; [by apply elem_of_nil in Hk|done].
  - simpl. apply IH. simpl in Hk.
    destruct (decide (k' = k)) as [->|Hne].
    + right. rewrite lookup_insert_eq. by eexists.
    + rewrite lookup_insert_ne by done.
      destruct Hk as [Hk|Hk]; [|by right].
      apply elem_of_cons in Hk as [Hk|Hk]; [congruence|by left].
Qed.

(** Every state the abbreviation lookup can give is a key of
    [STATE_ABBREV]. *)
Lemma ABBREV_TO_STATE_known (loc state_name : string) :
  ABBREV_TO_STATE !! loc = Some state_name → known_state state_name.
Proof.
  intros Hlook. apply dict_of_items_elem in Hlook.
  unfold invert_items in Hlook.
  apply list_elem_of_fmap in Hlook as ([k v] & Heq & Hin).
  simpl in Heq. injection Heq as Hloc Hname. subst loc state_name.
  apply dict_of_items_key. left.
  apply list_elem_of_fmap. by exists (k, v).
Qed.

(** ** Click resolution *)



(** C3, as the claim states it, fails: a payload with customdata is
    resolved to the first entry of the customdata, whatever it is. *)
Lemma handle_state_click_customdata_unchecked :
  valid_selection None
  ∧ ¬ valid_selection
        (handle_state_click (Some "choropleth-map")
           (Some {| customdata := Some [Some "Atlantis"]; point_text := None;
                    location := None |})
           None).
Proof.
  split; [done|].
  intros [s Hs]. by vm_compute in Hs.
Qed.

(** C3, amended. With a prior selection that is null or a known state
    name, a click whose payload has no customdata to use resolves to
    null or to a known state name (a key of [STATE_ABBREV], the table
    the resolution checks against); a map click whose payload has a
    non-empty customdata resolves to its first entry, unchecked. *)
Theorem handle_state_click_valid (triggered : option string)
    (map_click : option Point) (current_state : option string) :
  valid_selection current_state →
  ((∀ p, map_click = Some p → no_usable_customdata p) →
     valid_selection (handle_state_click triggered map_click current_state))
  ∧ (∀ p c cs, triggered = Some "choropleth-map" → map_click = Some p →
       customdata p = Some (c :: cs) →
       handle_state_click triggered map_click current_state = c).
Proof.
  intros Hvalid. split.
  - intros Hun. unfold handle_state_click.
    case_decide; [|exact Hvalid].
    destruct map_click as [p|]; [|exact Hvalid].
    assert (valid_selection
              match location p with
              | Some loc =>
                  if PyStr.truthy loc then
                    match ABBREV_TO_STATE !! loc with
                    | Some state_name => Some state_name
                    | None => current_state
                    end
                  else current_state
              | None => current_state
              end) as Hl.
    { destruct (location p) as [loc|]; [|exact Hvalid].
      destruct (PyStr.truthy loc); [|exact Hvalid].
      destruct (ABBREV_TO_STATE !! loc) as [s|] eqn:Hs; [|exact Hvalid].
      exact (ABBREV_TO_STATE_known loc s Hs). }
    cbv zeta.
    destruct (PyStr.contains "<br>" _).
    + case_decide as Hk;
        destruct (Hun p eq_refl) as [-> | ->]; first [exact Hk|exact Hl].
    + destruct (Hun p eq_refl) as [-> | ->]; exact Hl.
  - intros p c cs -> -> Hcd. unfold handle_state_click.
    rewrite decide_True by reflexivity. by rewrite Hcd.
Qed.

Lemma handle_state_click_valid_witness :
  valid_selection
    (handle_state_click (Some "choropleth-map")
       (Some {| customdata := None;
                point_text := Some "Ohio<br>Rate: 14.1 per 100k<br>Region: East North Central";
                location := Some "OH" |})
       (Some "Texas")).
Proof.
  assert (valid_selection (Some "Texas")) as Hprior.
  { exists "TX". by vm_compute. }
  apply (handle_state_click_valid _ _ _ Hprior).
  intros p [= <-]. by left.
Defined.

(** ** Map hover text *)

Lemma zip_fmap_pair {A B C : Type} (f : A → B) (g : A → C) (l : list A) :
  zip (f <$> l) (g <$> l) = (λ x, (f x, g x)) <$> l.
Proof. induction l as [|x l IH]; [done|]. cbn. f_equal. exact IH. Qed.

(** Traces with [hoverinfo="skip"] show nothing. *)
Lemma shown_hover_skip (fig : list Trace) :
  Forall (λ t, hoverinfo t = "skip") fig → shown_hover fig = [].
Proof.
  induction 1 as [|t fig Ht _ IH]; [done|].
  unfold shown_hover in *. cbn [mbind list_bind]. rewrite IH, Ht.
  by rewrite andb_false_r.
Qed.

Lemma label_traces_skip (rate_lookup : gmap string Q) :
  Forall (λ t, hoverinfo t = "skip") (label_traces rate_lookup).
Proof.
  apply Forall_forall. intros t Ht. unfold label_traces in Ht. cbv zeta in Ht.
  apply list_elem_of_bind in Ht as (sc & Ht & _).
  destruct (rate_lookup !! sc.1); [|by apply elem_of_nil in Ht].
  by apply list_elem_of_singleton in Ht as ->.
Qed.

Lemma small_state_traces_skip (rate_lookup : gmap string Q) :
  Forall (λ t, hoverinfo t = "skip") (small_state_traces rate_lookup).
Proof.
  apply Forall_forall. intros t Ht. unfold small_state_traces in Ht.
  apply list_elem_of_bind in Ht as (sc & Ht & _).
  destruct (rate_lookup !! sc.1); [|by apply elem_of_nil in Ht].
  cbv zeta in Ht. rewrite !elem_of_cons, elem_of_nil in Ht.
  by destruct Ht as [-> | [-> | []]].
Qed.

Lemma selected_trace_skip (selected_state : option string) :
  Forall (λ t, hoverinfo t = "skip") (selected_trace selected_state).
Proof.
  unfold selected_trace. destruct selected_state as [sel|]; [|constructor].
  destruct (PyStr.truthy sel); [|constructor].
  destruct (STATE_ABBREV !! sel); repeat constructor.
Qed.

Section MapHover.
Variable df : list RateRecord.
Variables (year : Z) (active_bands : list string).

(** The pairs shown by the band traces are those of the rows whose
    band is active. *)
Lemma shown_hover_bands (loc txt : string) :
  (loc, txt) ∈ shown_hover
      (band_trace (rows_of_year df year) active_bands <$> BAND_ORDER)
  ↔ ∃ r, r ∈ rows_of_year df year ∧ Rate_Band r ∈ BAND_ORDER
         ∧ Rate_Band r ∈ active_bands
         ∧ loc = Abbrev r ∧ txt = hover_full r.
Proof.
  unfold shown_hover. rewrite list_elem_of_bind. split.
  - intros (t & Hin & Ht).
    apply list_elem_of_fmap in Ht as (band & -> & Hband).
    unfold band_trace, Choropleth in Hin.
    cbn [visible hoverinfo locations text] in Hin.
    rewrite (bool_decide_eq_true_2 ("text" = "text")), andb_true_r in Hin by done.
    case_bool_decide as Hact; [|by apply elem_of_nil in Hin].
    rewrite zip_fmap_pair in Hin.
    apply list_elem_of_fmap in Hin as (r & Heq & Hr).
    apply list_elem_of_filter in Hr as [Hb Hr].
    injection Heq as -> ->. exists r. by rewrite Hb.
  - intros (r & Hr & Hband & Hact & -> & ->).
    exists (band_trace (rows_of_year df year) active_bands (Rate_Band r)).
    split; [|by apply list_elem_of_fmap_2].
    unfold band_trace, Choropleth. cbn [visible hoverinfo locations text].
    rewrite !bool_decide_eq_true_2 by done. cbn [andb].
    rewrite zip_fmap_pair. apply list_elem_of_fmap.
    exists r. split; [done|]. by apply list_elem_of_filter.
Qed.

(** The pairs shown by the grey trace are those of the rows whose
    band is not active. *)
Lemma shown_hover_filtered (loc txt : string) :
  (loc, txt) ∈ shown_hover (filtered_trace (rows_of_year df year) active_bands)
  ↔ ∃ r, r ∈ rows_of_year df year ∧ (Rate_Band r ∉ active_bands)
         ∧ loc = Abbrev r ∧ txt = hover_filtered r.
Proof.
  unfold filtered_trace. cbv zeta.
  set (df_inactive :=
         filter (λ r, Rate_Band r ∉ active_bands) (rows_of_year df year)).
  assert ((loc, txt) ∈ zip (Abbrev <$> df_inactive) (hover_filtered <$> df_inactive)
          ↔ ∃ r, r ∈ rows_of_year df year ∧ (Rate_Band r ∉ active_bands)
                 ∧ loc = Abbrev r ∧ txt = hover_filtered r) as Hzip.
  { rewrite zip_fmap_pair, list_elem_of_fmap. unfold df_inactive. split.
    - intros (r & Heq & Hr). apply list_elem_of_filter in Hr as [Hb Hr].
      injection Heq as -> ->. by exists r.
    - intros (r & Hr & Hb & -> & ->). exists r. split; [done|].
      by apply list_elem_of_filter. }
  case_decide as Hlen.
  - unfold shown_hover, Choropleth. cbn. by rewrite app_nil_r.
  - rewrite <- Hzip. destruct df_inactive; [|cbn in Hlen; lia].
    unfold shown_hover. cbn. done.
Qed.

(** All the hover text of the figure. *)
Lemma shown_hover_update_map (selected_state : option string)
    (loc txt : string) :
  (loc, txt) ∈ shown_hover (update_map df year active_bands selected_state)
  ↔ (∃ r, r ∈ rows_of_year df year ∧ Rate_Band r ∈ BAND_ORDER
          ∧ Rate_Band r ∈ active_bands
          ∧ loc = Abbrev r ∧ txt = hover_full r)
    ∨ (∃ r, r ∈ rows_of_year df year ∧ (Rate_Band r ∉ active_bands)
            ∧ loc = Abbrev r ∧ txt = hover_filtered r).
Proof.
  unfold update_map. cbv zeta. unfold shown_hover. rewrite !bind_app.
  fold (shown_hover (selected_trace selected_state)).
  rewrite (shown_hover_skip _ (selected_trace_skip selected_state)).
  match goal with
  | |- context [mbind _ (small_state_traces ?m)] =>
      fold (shown_hover (small_state_traces m));
      rewrite (shown_hover_skip _ (small_state_traces_skip m));
      fold (shown_hover (label_traces m));
      rewrite (shown_hover_skip _ (label_traces_skip m))
  end.
  rewrite !app_nil_r, elem_of_app.
  fold (shown_hover (band_trace (rows_of_year df year) active_bands <$> BAND_ORDER)).
  fold (shown_hover (filtered_trace (rows_of_year df year) active_bands)).
  by rewrite shown_hover_bands, shown_hover_filtered.
Qed.

End MapHover.

(** C2, as the claim states it, fails: with the band of Texas switched
    off the only trace that is drawn over Texas and hovers shows
    [Texas (filtered)], without rate and region. *)
Lemma update_map_hover_filtered_state :
  let row := example_row "Texas" "TX" 2023 14.4%Q in
  rows_of_year [row] 2023 = [row]
  ∧ hover_full row = "Texas<br>Rate: 14.4 per 100k<br>Region: West South Central"
  ∧ shown_hover (update_map [row] 2023 ["< 10"] None)
    = [("TX", "Texas (filtered)")]
  ∧ (Abbrev row, hover_full row)
      ∉ shown_hover (update_map [row] 2023 ["< 10"] None).
Proof.
  split_and!; [reflexivity|reflexivity|by vm_compute|].
  intros Hin. vm_compute in Hin.
  apply list_elem_of_singleton in Hin. discriminate.
Qed.

(** C2, amended. For a row of the selected year with a band of
    [BAND_ORDER]: when the band is active the hover text shows the
    state, the rate to one decimal, and the region; when the band is
    filtered out the hover text is the state name followed by
    [(filtered)].  No other hover text is drawn. *)
Theorem update_map_hover (df : list RateRecord) (year : Z)
    (active_bands : list string) (selected_state : option string)
    (r : RateRecord) :
  r ∈ rows_of_year df year → Rate_Band r ∈ BAND_ORDER →
  (Rate_Band r ∈ active_bands →
     (Abbrev r, hover_full r)
       ∈ shown_hover (update_map df year active_bands selected_state))
  ∧ (Rate_Band r ∉ active_bands →
     (Abbrev r, hover_filtered r)
       ∈ shown_hover (update_map df year active_bands selected_state))
  ∧ (∀ loc txt,
       (loc, txt) ∈ shown_hover (update_map df year active_bands selected_state) →
       ∃ r', r' ∈ rows_of_year df year ∧ loc = Abbrev r'
             ∧ ((Rate_Band r' ∈ active_bands ∧ txt = hover_full r')
                ∨ ((Rate_Band r' ∉ active_bands) ∧ txt = hover_filtered r'))).
Proof.
  intros Hr Hband.
  pose proof (shown_hover_update_map df year active_bands selected_state)
    as Hshown.
  split_and!.
  - intros Hact. apply Hshown. left. by exists r.
  - intros Hact. apply Hshown. right. by exists r.
  - intros loc txt [(r' & ? & ? & ? & ? & ?)|(r' & ? & ? & ? & ?)]%Hshown;
      exists r'; split_and!; auto.
Qed.

Lemma update_map_hover_witness :
  let row := example_row "Texas" "TX" 2023 14.4%Q in
  (Abbrev row, hover_full row)
    ∈ shown_hover (update_map [row] 2023 BAND_ORDER (Some "Texas"))
  ∧ (Abbrev row, hover_filtered row)
      ∈ shown_hover (update_map [row] 2023 ["< 10"] (Some "Texas")).
Proof.
  intros row.
  assert (row ∈ rows_of_year [row] 2023) as Hr by (vm_compute; left).
  assert (Rate_Band row ∈ BAND_ORDER) as Hb by (vm_compute; right; left).
  split.
  - apply (update_map_hover [row] 2023 BAND_ORDER (Some "Texas") row Hr Hb).
    vm_compute. right; left.
  - apply (update_map_hover [row] 2023 ["< 10"] (Some "Texas") row Hr Hb).
    intros Hin. vm_compute in Hin.
    apply list_elem_of_singleton in Hin. discriminate.
Defined.

(** ** Sorting *)

Section SortFacts.
Context {A : Type} (le : A → A → bool).
Implicit Types (x : A) (l : list A).

Lemma insert_sorted_Permutation x l : Pandas.insert_sorted le x l ≡ₚ x :: l.
Proof.
  induction l as [|y l IH]; [done|]. simpl.
  destruct (le x y); [done|]. rewrite IH. apply Permutation_swap.
Qed.

Lemma sort_by_Permutation l : Pandas.sort_by le l ≡ₚ l.
Proof.
  induction l as [|x l IH]; [done|]. unfold Pandas.sort_by in *. simpl.
  by rewrite insert_sorted_Permutation, IH.
Qed.

Hypothesis le_total : ∀ a b, le a b = false → le b a = true.
Hypothesis le_trans : ∀ a b c, le a b = true → le b c = true → le a c = true.

Lemma insert_sorted_StronglySorted x l :
  StronglySorted (λ a b, le a b = true) l →
  StronglySorted (λ a b, le a b = true) (Pandas.insert_sorted le x l).
Proof.
  induction 1 as [|y l Hsorted IH Hall]; simpl.
  - repeat constructor.
  - destruct (le x y) eqn:Hxy.
    + constructor; [by constructor|].
      constructor; [done|].
      eapply Forall_impl; [exact Hall|]. intros z Hyz. by eapply le_trans.
    + constructor; [exact IH|].
      rewrite insert_sorted_Permutation. constructor; [by apply le_total|done].
Qed.

Lemma sort_by_StronglySorted l :
  StronglySorted (λ a b, le a b = true) (Pandas.sort_by le l).
Proof.
  induction l as [|x l IH]; [constructor|].
  by apply insert_sorted_StronglySorted.
Qed.

(** Rows that are in order already stay where they are. *)
Lemma sort_by_sorted l :
  StronglySorted (λ a b, le a b = true) l → Pandas.sort_by le l = l.
Proof.
  induction 1 as [|x l Hsorted IH Hall]; [done|].
  unfold Pandas.sort_by in *. simpl. rewrite IH.
  destruct Hall as [|y l Hxy _]; [done|]. simpl. by rewrite Hxy.
Qed.

End SortFacts.

(** ** Counting and ranking *)

Lemma count_Permutation (p : Q → bool) (l1 l2 : list Q) :
  l1 ≡ₚ l2 → Pandas.count p l1 = Pandas.count p l2.
Proof. induction 1; simpl; lia. Qed.

Lemma count_nonneg (p : Q → bool) (l : list Q) : (0 ≤ Pandas.count p l)%Z.
Proof. induction l as [|y l IH]; simpl; [lia|]. destruct (p y); lia. Qed.

Lemma count_none (p : Q → bool) (l : list Q) :
  Forall (λ y, p y = false) l → Pandas.count p l = 0%Z.
Proof. induction 1 as [|y l Hy _ IH]; simpl; [done|]. rewrite Hy. lia. Qed.

Lemma count_pos (p : Q → bool) (l : list Q) (x : Q) :
  x ∈ l → p x = true → (1 ≤ Pandas.count p l)%Z.
Proof.
  induction 1 as [x l|x y l _ IH]; intros Hp; simpl.
  - rewrite Hp. pose proof (count_nonneg p l). lia.
  - specialize (IH Hp). destruct (p y); lia.
Qed.

Lemma Qltb_true (x y : Q) : Pandas.Qltb x y = true ↔ (x < y)%Q.
Proof.
  unfold Pandas.Qltb. destruct (Qlt_le_dec x y); split; try done.
  intros. lra.
Qed.

Lemma Qltb_false (x y : Q) : Pandas.Qltb x y = false ↔ (y <= x)%Q.
Proof.
  unfold Pandas.Qltb. destruct (Qlt_le_dec x y); split; try done.
  intros. lra.
Qed.

(** In a column sorted from the largest value down, the values equal
    to [x] sit right after the values greater than [x]: the sum of
    their places follows. *)
Lemma place_sum_sorted (x : Q) (l : list Q) :
  StronglySorted (λ a b, Qle_bool b a = true) l →
  ∀ place,
    (2 * Pandas.place_sum x place l
     = 2 * Pandas.count (λ y, Qeq_bool y x) l
         * (place + Pandas.count (λ y, Pandas.Qltb x y) l)
       + Pandas.count (λ y, Qeq_bool y x) l
         * (Pandas.count (λ y, Qeq_bool y x) l - 1))%Z.
Proof.
  induction 1 as [|y l Hsorted IH Hall]; intros place; simpl; [lia|].
  specialize (IH (place + 1)%Z).
  assert (Forall (λ z, (z <= y)%Q) l) as Hle.
  { eapply Forall_impl; [exact Hall|]. intros z Hz. by apply Qle_bool_iff. }
  destruct (Qeq_bool y x) eqn:Heq.
  - apply Qeq_bool_iff in Heq.
    assert (Pandas.Qltb x y = false) as -> by (apply Qltb_false; lra).
    assert (Pandas.count (λ z, Pandas.Qltb x z) l = 0%Z) as Hg.
    { apply count_none. eapply Forall_impl; [exact Hle|].
      intros z Hz. cbv beta in Hz. apply Qltb_false. lra. }
    rewrite Hg in *. nia.
  - apply Qeq_bool_neq in Heq.
    destruct (Pandas.Qltb x y) eqn:Hlt.
    + nia.
    + apply Qltb_false in Hlt.
      assert (Pandas.count (λ z, Pandas.Qltb x z) l = 0%Z) as Hg.
      { apply count_none. eapply Forall_impl; [exact Hle|].
        intros z Hz. cbv beta in Hz. apply Qltb_false. lra. }
      assert (Pandas.count (λ z, Qeq_bool z x) l = 0%Z) as Ht.
      { apply count_none. eapply Forall_impl; [exact Hle|].
        intros z Hz. cbv beta in Hz. destruct (Qeq_bool z x) eqn:Hzx; [|done].
        apply Qeq_bool_iff in Hzx. lra. }
      rewrite Hg, Ht in *. lia.
Qed.

Lemma astype_int_quotient (a t : Z) :
  (0 ≤ a)%Z → (0 < t)%Z →
  Pandas.astype_int (inject_Z a / inject_Z t) = (a / t)%Z.
Proof.
  intros Ha Ht. destruct t as [|p|p]; try lia.
  unfold Pandas.astype_int, Qdiv, Qinv, inject_Z. simpl.
  rewrite Z.mul_1_r. by apply Z.quot_div_nonneg.
Qed.

Lemma average_place (a t g : Z) :
  (1 ≤ t)%Z → (2 * a = 2 * t * (1 + g) + t * (t - 1))%Z →
  (a / t = g + (t + 1) / 2)%Z.
Proof.
  intros Ht Ha.
  pose proof (Z.div_mod (t + 1) 2 ltac:(lia)) as Hdm.
  pose proof (Z.mod_pos_bound (t + 1) 2 ltac:(lia)) as Hmod.
  symmetry. apply (Z.div_unique_pos a t _ (a - t * (g + (t + 1) / 2))); nia.
Qed.

(** The rank pandas gives to a value of the column, as an integer. *)
Lemma rank_descending_value (col : list Q) (x : Q) :
  x ∈ col →
  Pandas.astype_int
    (inject_Z (Pandas.place_sum x 1 (Pandas.sort_by (λ a b, Qle_bool b a) col))
     / inject_Z (Pandas.count (λ y, Qeq_bool y x)
                   (Pandas.sort_by (λ a b, Qle_bool b a) col)))
  = (Pandas.count (λ y, Pandas.Qltb x y) col
     + (Pandas.count (λ y, Qeq_bool y x) col + 1) / 2)%Z.
Proof.
  intros Hx.
  set (sorted := Pandas.sort_by (λ a b, Qle_bool b a) col).
  assert (sorted ≡ₚ col) as Hperm by apply sort_by_Permutation.
  assert (StronglySorted (λ a b, Qle_bool b a = true) sorted) as Hsorted.
  { apply (sort_by_StronglySorted (λ a b, Qle_bool b a)).
    - intros a b Hab. apply Qle_bool_iff.
      destruct (Qlt_le_dec a b) as [Hlt|Hle]; [lra|].
      assert (Qle_bool b a = true) by (by apply Qle_bool_iff). congruence.
    - intros a b c Hab Hbc. apply Qle_bool_iff.
      apply Qle_bool_iff in Hab, Hbc. lra. }
  pose proof (place_sum_sorted x sorted Hsorted 1) as Hsum.
  rewrite !(count_Permutation _ sorted col Hperm) in *.
  pose proof (count_pos (λ y, Qeq_bool y x) col x Hx (Qeq_bool_refl x)) as Ht.
  pose proof (count_nonneg (λ y, Pandas.Qltb x y) col) as Hg.
  rewrite astype_int_quotient; [|nia|lia].
  by apply average_place.
Qed.

Lemma ranks_of_state (g : RateRecord → Z) (state_name : string)
    (l : list RateRecord) :
  snd <$> filter (λ p, State p.1 = state_name) (zip l (g <$> l))
  = g <$> filter (λ r, State r = state_name) l.
Proof.
  induction l as [|r l IH]; [done|]. cbn [fmap list_fmap zip_with].
  destruct (decide (State r = state_name)) as [Hr|Hr].
  - rewrite !filter_cons_True by done. cbn. f_equal. exact IH.
  - rewrite !filter_cons_False by done. exact IH.
Qed.

(** [update_ranking] with the pandas calls unfolded: the rank printed
    is that of the first row of the state. *)
Lemma update_ranking_unfold (df : list RateRecord) (state_name : string)
    (year : Z) :
  PyStr.truthy state_name = true →
  update_ranking df (Some state_name) year =
    match
      (λ r, Pandas.astype_int
         (inject_Z (Pandas.place_sum (Rate r) 1
            (Pandas.sort_by (λ a b, Qle_bool b a) (Rate <$> rows_of_year df year)))
          / inject_Z (Pandas.count (λ y, Qeq_bool y (Rate r))
            (Pandas.sort_by (λ a b, Qle_bool b a) (Rate <$> rows_of_year df year)))))
      <$> state_row df state_name year
    with
    | Some rank0 => ranking_line df year rank0
    | None => ""
    end.
Proof.
  intros Hname. unfold update_ranking. rewrite Hname. cbn [negb].
  cbv zeta. unfold Pandas.rank_descending. cbv zeta.
  rewrite <- !list_fmap_compose.
  rewrite ranks_of_state. unfold state_row.
  by destruct (filter _ (rows_of_year df year)).
Qed.

(** C1, as the claim states it, fails: of three states tied at the
    highest rate none is ranked first. *)
Lemma update_ranking_three_way_tie :
  state_row tied_year "Texas" 2001 = Some (example_row "Texas" "TX" 2001 12)
  ∧ greater_in_year tied_year 12 2001 = 0%Z
  ∧ update_ranking tied_year (Some "Texas") 2001 = "Rank in 2001: #2 of 4"
  ∧ update_ranking tied_year (Some "Texas") 2001
      ≠ ranking_line tied_year 2001 (1 + greater_in_year tied_year 12 2001).
Proof. split_and!; [reflexivity|reflexivity|reflexivity|by vm_compute]. Qed.

(** C1, amended. For a selected state with a row in the selected
    year, the rank reported is the number of states with a strictly
    greater rate that year, plus half the number of states with the
    very rate of the state (itself included) rounded up; this is 1
    plus the number of strictly greater rates whenever at most two
    states share the rate.  The total reported is the number of rows
    of that year. *)
Theorem update_ranking_rank (df : list RateRecord) (state_name : string)
    (year : Z) (r : RateRecord) :
  PyStr.truthy state_name = true →
  state_row df state_name year = Some r →
  update_ranking df (Some state_name) year
    = ranking_line df year
        (greater_in_year df (Rate r) year
         + (tied_in_year df (Rate r) year + 1) / 2)
  ∧ (tied_in_year df (Rate r) year ≤ 2 →
     update_ranking df (Some state_name) year
       = ranking_line df year (1 + greater_in_year df (Rate r) year))%Z.
Proof.
  intros Hname Hrow.
  assert (update_ranking df (Some state_name) year
          = ranking_line df year
              (greater_in_year df (Rate r) year
               + (tied_in_year df (Rate r) year + 1) / 2)) as Hrank.
  { rewrite (update_ranking_unfold df state_name year Hname), Hrow.
    cbn [fmap option_fmap option_map]. f_equal.
    apply rank_descending_value.
    apply list_elem_of_fmap_2.
    apply head_Some_elem_of in Hrow.
    by apply list_elem_of_filter in Hrow as [_ Hr]. }
  split; [exact Hrank|].
  intros Htied. rewrite Hrank. f_equal.
  assert (1 ≤ tied_in_year df (Rate r) year)%Z as Hpos.
  { apply (count_pos _ _ (Rate r)); [|apply Qeq_bool_refl].
    apply list_elem_of_fmap_2.
    apply head_Some_elem_of in Hrow.
    by apply list_elem_of_filter in Hrow as [_ Hr]. }
  assert (tied_in_year df (Rate r) year = 1 ∨ tied_in_year df (Rate r) year = 2)%Z
    as [-> | ->] by lia.
  - change ((1 + 1) / 2)%Z with 1%Z. lia.
  - change ((2 + 1) / 2)%Z with 1%Z. lia.
Qed.

Lemma update_ranking_rank_witness :
  update_ranking tied_year (Some "Louisiana") 2001
    = ranking_line tied_year 2001 (1 + 3)
  ∧ update_ranking tied_year (Some "Texas") 2001
    = ranking_line tied_year 2001 (0 + (3 + 1) / 2).
Proof.
  split.
  - apply (update_ranking_rank tied_year "Louisiana" 2001
             (example_row "Louisiana" "LA" 2001 11.5%Q));
      [reflexivity|reflexivity|by vm_compute].
  - apply (update_ranking_rank tied_year "Texas" 2001
             (example_row "Texas" "TX" 2001 12)); reflexivity.
Defined.

(** C10. A selected state without a row in the selected year gets the
    empty string, as when no state is selected. *)
Theorem update_ranking_no_record (df : list RateRecord) (state_name : string)
    (year : Z) :
  (∀ r, r ∈ df → Year r = year → State r ≠ state_name) →
  update_ranking df (Some state_name) year = ""
  ∧ update_ranking df None year = "".
Proof.
  intros Hnone. split; [|reflexivity].
  destruct (PyStr.truthy state_name) eqn:Hname.
  - rewrite (update_ranking_unfold df state_name year Hname).
    assert (state_row df state_name year = None) as ->; [|done].
    unfold state_row. destruct (filter _ _) as [|r rest] eqn:Hf; [done|].
    assert (r ∈ filter (λ r, State r = state_name) (rows_of_year df year)) as Hr.
    { rewrite Hf. by left. }
    apply list_elem_of_filter in Hr as [Hstate Hr].
    apply list_elem_of_filter in Hr as [Hyear Hr].
    by destruct (Hnone r Hr Hyear).
  - unfold update_ranking. by rewrite Hname.
Qed.

Lemma update_ranking_no_record_witness :
  update_ranking tied_year (Some "Ohio") 2001 = ""
  ∧ update_ranking tied_year (Some "Texas") 2002 = "".
Proof.
  split.
  - apply (update_ranking_no_record tied_year "Ohio" 2001).
    intros r Hr _. unfold tied_year in Hr.
    rewrite !elem_of_cons, elem_of_nil in Hr.
    destruct Hr as [-> | [-> | [-> | [-> | []]]]]; discriminate.
  - apply (update_ranking_no_record tied_year "Texas" 2002).
    intros r Hr Hy. unfold tied_year in Hr.
    rewrite !elem_of_cons, elem_of_nil in Hr.
    destruct Hr as [-> | [-> | [-> | [-> | []]]]]; discriminate.
Defined.

(** ** Extremes of a column *)

Section FirstBest.
Variable better : Q → Q → bool.
Hypothesis better_asym : ∀ x y, better x y = true → better y x = false.
Hypothesis better_negtrans :
  ∀ x y z, better x y = false → better y z = false → better x z = false.

Lemma better_irrefl (x : Q) : better x x = false.
Proof.
  destruct (better x x) eqn:Hx; [|done]. by rewrite (better_asym x x Hx) in Hx.
Qed.

Lemma first_best_None (col : list (option Q)) :
  Pandas.first_best better col = None → ∀ j w, col !! j ≠ Some (Some w).
Proof.
  induction col as [|o col IH]; intros Hnone j w; [by destruct j|].
  simpl in Hnone.
  destruct (Pandas.first_best better col) as [[i v]|] eqn:Hlater;
    destruct o as [x|]; simpl in Hnone; try discriminate.
  - by destruct (better v x).
  - destruct j as [|j]; [done|]. by apply IH.
Qed.

Lemma first_best_Some (col : list (option Q)) (i : nat) (v : Q) :
  Pandas.first_best better col = Some (i, v) →
  col !! i = Some (Some v)
  ∧ (∀ j w, col !! j = Some (Some w) → better w v = false)
  ∧ (∀ j w, j < i → col !! j = Some (Some w) → better v w = true).
Proof.
  revert i v. induction col as [|o col IH]; intros i v Hbest; [done|].
  simpl in Hbest.
  destruct (Pandas.first_best better col) as [[i' v']|] eqn:Hlater.
  - destruct (IH i' v' eq_refl) as (Hat & Hall & Hfirst).
    destruct o as [x|]; simpl in Hbest.
    + destruct (better v' x) eqn:Hb; injection Hbest as <- <-.
      * split_and!; [done| |].
        -- intros [|j] w Hj; [|by eapply Hall].
           injection Hj as <-. by apply better_asym.
        -- intros [|j] w Hlt Hj; [by injection Hj as <-|].
           eapply Hfirst; [|done]. lia.
      * split_and!; [done| |intros; lia].
        intros [|j] w Hj; [injection Hj as <-; apply better_irrefl|].
        eapply better_negtrans; [by eapply Hall|done].
    + injection Hbest as <- <-. split_and!; [done| |].
      * intros [|j] w Hj; [done|]. by eapply Hall.
      * intros [|j] w Hlt Hj; [done|]. eapply Hfirst; [|done]. lia.
  - destruct o as [x|]; simpl in Hbest; [|done].
    injection Hbest as <- <-. split_and!; [done| |intros; lia].
    intros [|j] w Hj; [injection Hj as <-; apply better_irrefl|].
    by destruct (first_best_None col Hlater j w).
Qed.

Lemma first_best_is_Some (col : list (option Q)) (j : nat) (w : Q) :
  col !! j = Some (Some w) → is_Some (Pandas.first_best better col).
Proof.
  intros Hj. destruct (Pandas.first_best better col) as [?|] eqn:Hb; [done|].
  by destruct (first_best_None col Hb j w).
Qed.

End FirstBest.

Lemma Qltb_asym (x y : Q) : Pandas.Qltb x y = true → Pandas.Qltb y x = false.
Proof. intros Hxy. apply Qltb_true in Hxy. apply Qltb_false. lra. Qed.

Lemma Qltb_negtrans (x y z : Q) :
  Pandas.Qltb x y = false → Pandas.Qltb y z = false → Pandas.Qltb x z = false.
Proof.
  intros Hxy Hyz. apply Qltb_false in Hxy, Hyz. apply Qltb_false. lra.
Qed.

Lemma idxmin_Some (col : list (option Q)) (i : nat) (v : Q) :
  Pandas.idxmin col = Some (i, v) →
  col !! i = Some (Some v)
  ∧ (∀ j w, col !! j = Some (Some w) → (v <= w)%Q)
  ∧ (∀ j w, j < i → col !! j = Some (Some w) → (v < w)%Q).
Proof.
  intros Hmin. unfold Pandas.idxmin in Hmin.
  apply (first_best_Some (λ v x, Pandas.Qltb v x)) in Hmin
    as (Hat & Hall & Hfirst).
  - split_and!; [done| |].
    + intros j w Hj. apply Qltb_false. by eapply Hall.
    + intros j w Hlt Hj. apply Qltb_true. by eapply Hfirst.
  - intros x y. apply Qltb_asym.
  - intros x y z. apply Qltb_negtrans.
Qed.

Lemma idxmax_Some (col : list (option Q)) (i : nat) (v : Q) :
  Pandas.idxmax col = Some (i, v) →
  col !! i = Some (Some v)
  ∧ (∀ j w, col !! j = Some (Some w) → (w <= v)%Q)
  ∧ (∀ j w, j < i → col !! j = Some (Some w) → (w < v)%Q).
Proof.
  intros Hmax. unfold Pandas.idxmax in Hmax.
  apply (first_best_Some (λ v x, Pandas.Qltb x v)) in Hmax
    as (Hat & Hall & Hfirst).
  - split_and!; [done| |].
    + intros j w Hj. apply Qltb_false. by eapply Hall.
    + intros j w Hlt Hj. apply Qltb_true. by eapply Hfirst.
  - intros x y. apply Qltb_asym.
  - intros x y z Hxy Hyz. by apply (Qltb_negtrans z y x).
Qed.

(** ** Year-over-year changes *)

Lemma diff_lookup_S (col : list Q) (i : nat) :
  Pandas.diff col !! S i
  = (prev ← col !! i; cur ← col !! S i; Some (Some (cur - prev)%Q)).
Proof.
  destruct col as [|x col]; [done|].
  transitivity
    (zip_with (λ prev cur, Some (cur - prev)%Q) (x :: col) col !! i);
    [reflexivity|].
  rewrite lookup_zip_with.
  change ((x :: col) !! S i) with (col !! i).
  destruct ((x :: col) !! i); [|done]. simpl.
  by destruct (col !! i).
Qed.

Lemma diff_lookup_Some (col : list Q) (j : nat) (d : Q) :
  Pandas.diff col !! j = Some (Some d) →
  ∃ i prev cur, j = S i ∧ col !! i = Some prev ∧ col !! S i = Some cur
                ∧ d = (cur - prev)%Q.
Proof.
  destruct j as [|i]; [by destruct col|].
  rewrite diff_lookup_S. intros Hd.
  destruct (col !! i) as [prev|] eqn:Hprev; [|done].
  destruct (col !! S i) as [cur|] eqn:Hcur; [|done].
  simpl in Hd. injection Hd as <-. by exists i, prev, cur.
Qed.

(** ** Detail statistics *)

Lemma state_series_elem (df : list RateRecord) (state_name : string)
    (r : RateRecord) :
  r ∈ state_series df state_name ↔ r ∈ df ∧ State r = state_name.
Proof.
  unfold state_series. rewrite sort_by_Permutation, list_elem_of_filter. tauto.
Qed.


Lemma lookup_rate_column (s : list RateRecord) (i : nat) (r : RateRecord) :
  s !! i = Some r → (Some <$> (Rate <$> s)) !! i = Some (Some (Rate r)).
Proof. intros Hi. by rewrite !list_lookup_fmap, Hi. Qed.

Lemma lookup_rate_column_inv (s : list RateRecord) (i : nat) (v : Q) :
  (Some <$> (Rate <$> s)) !! i = Some (Some v) →
  ∃ r, s !! i = Some r ∧ Rate r = v.
Proof.
  rewrite !list_lookup_fmap. destruct (s !! i) as [r|]; [|done].
  simpl. intros [= <-]. by exists r.
Qed.



Section StatsOfSeries.
Variables (s : list RateRecord) (r0 : RateRecord).
Hypothesis Hcons : consecutive_years s.
Hypothesis H0 : s !! 0 = Some r0.







End StatsOfSeries.

(** The three-year series 12.0, 15.0, 11.0 of the specification. *)
Example update_state_stats_three_years (Series_mean : list Q → Q) :
  update_state_stats three_years Series_mean (Some "Texas")
  = Returns (Details "Texas"
      {| min_rate := 11;  min_year := 2003;
         max_rate := 15;  max_year := 2002;
         avg_rate := Series_mean [12; 15; 11]%Q;
         inc_Change := 3;  inc_Year := 2002;
         dec_Change := -4;  dec_Year := 2003 |}).
Proof. reflexivity. Qed.

(** Where a year is missing (which the loaded frame excludes), the
    change reported for the next year is taken from the row before it,
    not from the year before it: [diff] works on rows. *)
Example update_state_stats_missing_year (Series_mean : list Q → Q) :
  let gap := [example_row "Texas" "TX" 2001 12; example_row "Texas" "TX" 2003 15] in
  ∃ rep, update_state_stats gap Series_mean (Some "Texas")
         = Returns (Details "Texas" rep)
         ∧ inc_Year rep = 2003%Z ∧ inc_Change rep = 3%Q
         ∧ ¬ change_in (state_series gap "Texas") 2003 3.
Proof.
  intros gap.
  eexists. split_and!; [reflexivity|reflexivity|reflexivity|].
  replace (state_series gap "Texas") with gap by reflexivity.
  intros (prev & cur & Hprev & _ & _ & Hyear & _).
  unfold gap in Hprev. rewrite !elem_of_cons, elem_of_nil in Hprev.
  destruct Hprev as [-> | [-> | []]]; discriminate.
Qed.



(** * Further properties of the callbacks *)

(** ** Play button and clock *)

(** X1. A click on the play button flips the clock between stopped
    and running, so two clicks bring it back; the label names the
    action the next click performs; before any click the clock is
    stopped.  After a click that stops the clock a tick leaves the
    year alone, after a click that starts it a tick changes the year. *)
Theorem toggle_play_alternates (k k' n year : Z) (is_disabled : bool) :
  (toggle_play (Some k) is_disabled).2 = negb is_disabled
  ∧ (toggle_play (Some k') (toggle_play (Some k) is_disabled).2).2 = is_disabled
  ∧ ((toggle_play (Some k) is_disabled).1 = "▶ Play"
     ↔ (toggle_play (Some k) is_disabled).2 = true)
  ∧ toggle_play None is_disabled = ("▶ Play", true)
  ∧ advance_year (Some n) year (toggle_play (Some k) false).2 = year
  ∧ advance_year (Some n) year (toggle_play (Some k) true).2 ≠ year.
Proof.
  split_and!; try by destruct is_disabled.
  unfold advance_year. cbn. repeat case_bool_decide; lia.
Qed.

Lemma advance_year_running (n year : Z) :
  advance_year (Some n) year false
  = if bool_decide (2023 ≤ year)%Z then 2000%Z else (year + 1)%Z.
Proof. reflexivity. Qed.

(** X2. While the clock runs the year goes round the 24 years of the
    range: after [ticks] ticks from a year of the range the year is
    2000 + (year - 2000 + ticks) mod 24, so 24 ticks bring every year
    back to itself and the year never leaves the range. *)
Theorem run_ticks_cycle (ticks : nat) (first year : Z) :
  (2000 ≤ year ≤ 2023)%Z →
  run_ticks ticks first year = (2000 + (year - 2000 + Z.of_nat ticks) mod 24)%Z
  ∧ (2000 ≤ run_ticks ticks first year ≤ 2023)%Z
  ∧ run_ticks 24 first year = year.
Proof.
  intros Hy.
  assert (∀ ticks first year, (2000 ≤ year ≤ 2023)%Z →
            run_ticks ticks first year
            = (2000 + (year - 2000 + Z.of_nat ticks) mod 24)%Z) as Hrun.
  { clear. induction ticks as [|k IH]; intros first year Hy.
    - simpl. rewrite Z.add_0_r, Z.mod_small; lia.
    - cbn [run_ticks]. rewrite advance_year_running.
      case_bool_decide as Hlast.
      + rewrite IH by lia. assert (year = 2023%Z) as -> by lia.
        f_equal.
        replace (2023 - 2000 + Z.of_nat (S k))%Z
          with (Z.of_nat k + 1 * 24)%Z by lia.
        rewrite Z.mod_add by lia. f_equal; lia.
      + rewrite IH by lia. do 2 f_equal; lia. }
  split; [|split].
  - by apply Hrun.
  - rewrite Hrun by done.
    pose proof (Z.mod_pos_bound (year - 2000 + Z.of_nat ticks) 24 ltac:(lia)).
    lia.
  - rewrite Hrun by done.
    replace (year - 2000 + Z.of_nat 24)%Z with ((year - 2000) + 1 * 24)%Z
      by (change (Z.of_nat 24) with 24%Z; lia).
    rewrite Z.mod_add by lia. rewrite Z.mod_small by lia. lia.
Qed.

Lemma run_ticks_cycle_witness :
  run_ticks 24 0 2010 = 2010%Z ∧ run_ticks 3 0 2022 = 2001%Z.
Proof.
  split.
  - apply (run_ticks_cycle 24 0 2010). lia.
  - rewrite (proj1 (run_ticks_cycle 3 0 2022 ltac:(lia))). reflexivity.
Defined.

(** X3. A year outside the range: a running clock brings a year above
    the range back to 2000 with the first tick and never yields a
    year above 2023, but a year below the range only moves up by one
    a tick. *)
Theorem advance_year_out_of_range (n year : Z) :
  (advance_year (Some n) year false ≤ 2023)%Z
  ∧ ((2023 < year)%Z → advance_year (Some n) year false = 2000%Z)
  ∧ ((year < 1999)%Z →
       advance_year (Some n) year false = (year + 1)%Z
       ∧ (advance_year (Some n) year false < 2000)%Z).
Proof.
  rewrite advance_year_running. case_bool_decide; split_and!; intros; lia.
Qed.

Lemma advance_year_out_of_range_witness :
  advance_year (Some 1%Z) 2050 false = 2000%Z
  ∧ advance_year (Some 1%Z) 1990 false = 1991%Z.
Proof.
  split.
  - apply (advance_year_out_of_range 1 2050). lia.
  - apply (advance_year_out_of_range 1 1990). lia.
Defined.

(** ** More on the band toggle *)

Lemma filter_other_absent (band : string) (bands : list string) :
  band ∉ bands → filter (λ b, b ≠ band) bands = bands.
Proof.
  induction bands as [|c bands IH]; intros Hnotin; [done|].
  apply not_elem_of_cons in Hnotin as [Hne Hnotin].
  rewrite filter_cons_True by congruence. f_equal. by apply IH.
Qed.

(** X4. Switching on a band that is off and switching it off again
    gives back the very list the store held, provided the store was
    not empty; from an empty store the band stays on, since the last
    active band is never removed. *)
Theorem toggle_band_on_off (bands : list string) (b : string) :
  b ∈ BAND_ORDER → b ∉ bands →
  toggle_band (Some (legend_id b)) (toggle_band (Some (legend_id b)) bands)
  = match bands with [] => [b] | _ :: _ => bands end.
Proof.
  intros Hb Hnotin.
  rewrite (toggle_band_legend b bands Hb), decide_False by done.
  rewrite (toggle_band_legend b _ Hb).
  rewrite decide_True by (apply elem_of_app; right; by left).
  destruct bands as [|a bands].
  - by rewrite decide_False by (simpl; lia).
  - rewrite decide_True by (rewrite length_app; simpl; lia).
    rewrite filter_app, (filter_other_absent b (a :: bands) Hnotin).
    rewrite filter_cons_False by (intros Hne; by apply Hne).
    by rewrite filter_nil, app_nil_r.
Qed.

Lemma toggle_band_on_off_witness :
  toggle_band (Some (legend_id "> 30"))
    (toggle_band (Some (legend_id "> 30")) ["15-20"; "< 10"])
  = ["15-20"; "< 10"]
  ∧ toggle_band (Some (legend_id "> 30"))
      (toggle_band (Some (legend_id "> 30")) []) = ["> 30"].
Proof.
  split.
  - apply (toggle_band_on_off ["15-20"; "< 10"] "> 30"); [compute_done|].
    rewrite !not_elem_of_cons. split_and!; [done|done|apply not_elem_of_nil].
  - apply (toggle_band_on_off [] "> 30"); [compute_done|apply not_elem_of_nil].
Defined.

Lemma toggle_band_subset (t : option string) (bands : list string) (b : string) :
  t = Some (legend_id b) → b ∈ BAND_ORDER →
  bands ⊆ BAND_ORDER → toggle_band t bands ⊆ BAND_ORDER.
Proof.
  intros -> Hb Hsub. rewrite (toggle_band_legend b bands Hb).
  repeat case_decide; try done.
  - intros x Hx. apply list_elem_of_filter in Hx as [_ Hx]. by apply Hsub.
  - intros x Hx. apply elem_of_app in Hx as [Hx|Hx]; [by apply Hsub|].
    by apply list_elem_of_singleton in Hx as ->.
Qed.

(** X5. Whatever legend entries are clicked, in whatever order, the
    store that started with the six bands holds only bands of
    [BAND_ORDER], none of them twice, and so between one and six
    bands; a callback without a trigger leaves the store as it is. *)
Theorem toggle_bands_within_order (clicks : list (option string)) :
  Forall (λ t, ∃ b, b ∈ BAND_ORDER ∧ t = Some (legend_id b)) clicks →
  toggle_bands clicks BAND_ORDER ⊆ BAND_ORDER
  ∧ NoDup (toggle_bands clicks BAND_ORDER)
  ∧ 1 ≤ length (toggle_bands clicks BAND_ORDER) ≤ 6
  ∧ (∀ bands, toggle_band None bands = bands
              ∧ toggle_band (Some "") bands = bands).
Proof.
  intros Hclicks.
  assert (∀ bands, bands ⊆ BAND_ORDER →
            toggle_bands clicks bands ⊆ BAND_ORDER) as Hsub.
  { induction Hclicks as [|t clicks (b & Hb & Ht) _ IH]; intros bands Hbands;
      [done|].
    cbn. apply IH. by eapply toggle_band_subset. }
  specialize (Hsub BAND_ORDER (reflexivity _)).
  destruct (toggle_bands_keep clicks BAND_ORDER) as [Hne Hnd];
    [done|apply BAND_ORDER_NoDup|].
  split_and!; [done|done| | |done].
  - destruct (toggle_bands clicks BAND_ORDER); [done|simpl; lia].
  - change 6 with (length BAND_ORDER).
    apply submseteq_length. by apply NoDup_submseteq.
Qed.

Lemma toggle_bands_within_order_witness :
  toggle_bands [Some (legend_id "< 10"); Some (legend_id "> 30");
                Some (legend_id "< 10")] BAND_ORDER ⊆ BAND_ORDER.
Proof.
  apply toggle_bands_within_order.
  repeat (apply Forall_cons; split; [eexists; split; [|reflexivity]; compute_done|]).
  apply Forall_nil_2.
Defined.

(** ** Legend styles *)

Lemma legend_style_by_membership (a a' : list string) (band : string) :
  (band ∈ a ↔ band ∈ a') → legend_style a band = legend_style a' band.
Proof.
  intros Hiff. unfold legend_style.
  by rewrite (bool_decide_ext (band ∈ a) (band ∈ a') Hiff).
Qed.

(** X6. The legend always has six entries, in the order of
    [BAND_ORDER]: an active band shows its own colour at full opacity,
    a band that is off is grey at opacity 0.4.  The styles depend on
    which bands are active only, not on the order of the stored list:
    after two clicks on one entry, from the six bands, the legend is
    styled as at the start. *)
Theorem update_legend_styles_by_membership (active_bands : list string) :
  length (update_legend_styles active_bands) = 6
  ∧ (∀ i band, BAND_ORDER !! i = Some band →
       ∃ style, update_legend_styles active_bands !! i = Some style
         ∧ (band ∈ active_bands →
              ("backgroundColor", StyleStr (BAND_COLORS !!! band)) ∈ style
              ∧ ("opacity", StyleNum 1) ∈ style)
         ∧ (band ∉ active_bands →
              ("backgroundColor", StyleStr "#dee2e6") ∈ style
              ∧ ("opacity", StyleNum 0.4%Q) ∈ style
              ∧ ("color", StyleStr "#212529") ∈ style))
  ∧ (∀ other, (∀ b, b ∈ active_bands ↔ b ∈ other) →
       update_legend_styles active_bands = update_legend_styles other)
  ∧ (∀ b, b ∈ BAND_ORDER →
       update_legend_styles
         (toggle_band (Some (legend_id b))
            (toggle_band (Some (legend_id b)) BAND_ORDER))
       = update_legend_styles BAND_ORDER).
Proof.
  assert (∀ a other, (∀ b, b ∈ a ↔ b ∈ other) →
            update_legend_styles a = update_legend_styles other) as Hext.
  { intros a other Hiff. unfold update_legend_styles.
    apply list_fmap_ext. intros _ band _. by apply legend_style_by_membership. }
  split_and!.
  - reflexivity.
  - intros i band Hi. exists (legend_style active_bands band). split_and!.
    + unfold update_legend_styles. by rewrite list_lookup_fmap, Hi.
    + intros Hin. unfold legend_style.
      rewrite bool_decide_eq_true_2 by done. cbn [negb].
      split; repeat first [by left | right].
    + intros Hnotin. unfold legend_style.
      rewrite bool_decide_eq_false_2 by done. cbn [negb].
      split_and!; repeat first [by left | right].
  - apply Hext.
  - intros b Hb. apply Hext. intros x.
    rewrite (toggle_band_legend b BAND_ORDER Hb).
    rewrite decide_True by done.
    rewrite decide_True by (simpl; lia).
    rewrite (toggle_band_legend b _ Hb).
    rewrite decide_False by (rewrite list_elem_of_filter; tauto).
    by rewrite (filter_other_app_Permutation b BAND_ORDER BAND_ORDER_NoDup Hb).
Qed.

Lemma update_legend_styles_by_membership_witness :
  update_legend_styles ["> 30"; "< 10"] = update_legend_styles ["< 10"; "> 30"].
Proof.
  apply (update_legend_styles_by_membership ["> 30"; "< 10"]).
  intros b. rewrite !elem_of_cons, !elem_of_nil. tauto.
Defined.

(** ** Dictionaries built from items *)

Section DictOfItems.
Context {V : Type}.
Implicit Types (items : list (string * V)) (m : gmap string V).

Lemma dict_fold_notin items m (k : string) :
  k ∉ items.*1 → foldl (λ m kv, <[kv.1 := kv.2]> m) m items !! k = m !! k.
Proof.
  revert m. induction items as [|[k' v'] items IH]; intros m Hk; [done|].
  cbn in Hk. apply not_elem_of_cons in Hk as [Hne Hk].
  cbn. rewrite IH by done. by rewrite lookup_insert_ne.
Qed.

Lemma dict_fold_elem items m (k : string) (v : V) :
  foldl (λ m kv, <[kv.1 := kv.2]> m) m items !! k = Some v →
  (k, v) ∈ items ∨ m !! k = Some v.
Proof.
  revert m. induction items as [|[k' v'] items IH]; intros m Hlook; [by right|].
  cbn in Hlook. apply IH in Hlook as [Hin|Hlook].
  - left. by right.
  - destruct (decide (k' = k)) as [->|Hne].
    + rewrite lookup_insert_eq in Hlook. injection Hlook as ->. left. by left.
    + rewrite lookup_insert_ne in Hlook by done. by right.
Qed.

Lemma dict_lookup_elem items (k : string) (v : V) :
  dict_of_items items !! k = Some v → (k, v) ∈ items.
Proof.
  intros Hlook. apply dict_fold_elem in Hlook as [Hin|Hlook]; [done|].
  by rewrite lookup_empty in Hlook.
Qed.

Lemma dict_fold_NoDup items m (k : string) (v : V) :
  NoDup items.*1 → (k, v) ∈ items →
  foldl (λ m kv, <[kv.1 := kv.2]> m) m items !! k = Some v.
Proof.
  revert m. induction items as [|[k' v'] items IH]; intros m Hnd Hin;
    [by apply elem_of_nil in Hin|].
  cbn in Hnd. apply NoDup_cons in Hnd as [Hfresh Hnd].
  apply elem_of_cons in Hin as [Heq|Hin].
  - injection Heq as -> ->. cbn.
    rewrite dict_fold_notin by done. apply lookup_insert_eq.
  - cbn. by apply IH.
Qed.

(** With distinct keys, the dictionary holds exactly the items. *)
Lemma dict_lookup_NoDup items (k : string) (v : V) :
  NoDup items.*1 →
  dict_of_items items !! k = Some v ↔ (k, v) ∈ items.
Proof.
  intros Hnd. split; [apply dict_lookup_elem|by apply dict_fold_NoDup].
Qed.

Lemma dict_lookup_is_Some items (k : string) :
  is_Some (dict_of_items items !! k) ↔ k ∈ items.*1.
Proof.
  split.
  - intros [v Hv]. apply dict_lookup_elem in Hv.
    apply list_elem_of_fmap. by exists (k, v).
  - unfold dict_of_items. generalize (∅ : gmap string V).
    induction items as [|[k' v'] items IH]; intros m Hk;
      [by apply elem_of_nil in Hk|].
    cbn in Hk. cbn.
    destruct (decide (k ∈ items.*1)) as [Hin|Hnotin]; [by apply IH|].
    apply elem_of_cons in Hk as [->|Hk]; [|done].
    rewrite dict_fold_notin by done. rewrite lookup_insert_eq. by eexists.
Qed.

End DictOfItems.

(** ** The state tables *)

Lemma STATE_ABBREV_items_NoDup :
  NoDup STATE_ABBREV_items.*1 ∧ NoDup STATE_ABBREV_items.*2.
Proof. split; compute_done. Qed.

Lemma invert_items_elem (items : list (string * string)) (k v : string) :
  (v, k) ∈ invert_items items ↔ (k, v) ∈ items.
Proof.
  unfold invert_items. rewrite list_elem_of_fmap. split.
  - intros ([k' v'] & Heq & Hin). cbn in Heq. by injection Heq as -> ->.
  - intros Hin. by exists (k, v).
Qed.

Lemma invert_items_keys (items : list (string * string)) :
  (invert_items items).*1 = items.*2.
Proof.
  unfold invert_items. rewrite <- list_fmap_compose. by apply list_fmap_ext.
Qed.

(** Swapping the columns of a table with distinct keys and distinct
    values gives the inverse dictionary. *)
Lemma invert_items_lookup (items : list (string * string)) (k v : string) :
  NoDup items.*1 → NoDup items.*2 →
  dict_of_items items !! k = Some v
  ↔ dict_of_items (invert_items items) !! v = Some k.
Proof.
  intros Hkeys Hvalues.
  rewrite (dict_lookup_NoDup items k v Hkeys).
  rewrite (dict_lookup_NoDup (invert_items items) v k)
    by (by rewrite invert_items_keys).
  by rewrite invert_items_elem.
Qed.

(** X7. The two state tables are inverse to each other: a state has
    an abbreviation exactly when the abbreviation leads back to the
    state, so no two states share an abbreviation and the lookup by
    location is unambiguous. *)
Theorem STATE_ABBREV_inverse (state abbrev : string) :
  STATE_ABBREV !! state = Some abbrev ↔ ABBREV_TO_STATE !! abbrev = Some state.
Proof.
  destruct STATE_ABBREV_items_NoDup as [Hkeys Hvalues].
  by apply invert_items_lookup.
Qed.

(** ** Text of a point *)

Lemma no_lt_cons (c : ascii) (s : string) :
  PyStr.contains "<" (String c s) = false →
  c ≠ "<"%char ∧ PyStr.contains "<" s = false.
Proof.
  cbn [PyStr.contains]. intros [Hc Hs]%orb_false_elim. split; [|done].
  intros ->. by destruct s.
Qed.

Lemma prefix_br_other (c : ascii) (s : string) :
  c ≠ "<"%char → String.prefix "<br>" (String c s) = false.
Proof.
  intros Hc.
  change (String.prefix "<br>" (String c s))
    with (if Ascii.ascii_dec "<" c then String.prefix "br>" s else false).
  destruct (Ascii.ascii_dec "<" c) as [Heq|]; [|done].
  by destruct Hc.
Qed.

Lemma before_br (s rest : string) :
  PyStr.contains "<" s = false →
  PyStr.before "<br>" (s +:+ "<br>" +:+ rest) = s.
Proof.
  induction s as [|c s IH]; intros Hs; [by destruct rest|].
  apply no_lt_cons in Hs as [Hc Hs].
  change (String c s +:+ "<br>" +:+ rest) with (String c (s +:+ "<br>" +:+ rest)).
  cbn [PyStr.before]. rewrite (prefix_br_other c _ Hc). f_equal. by apply IH.
Qed.

Lemma contains_br (s rest : string) :
  PyStr.contains "<br>" (s +:+ "<br>" +:+ rest) = true.
Proof.
  induction s as [|c s IH]; [by destruct rest|].
  change (String c s +:+ "<br>" +:+ rest) with (String c (s +:+ "<br>" +:+ rest)).
  cbn [PyStr.contains]. rewrite IH. apply orb_true_r.
Qed.

Lemma contains_br_no_lt (t : string) :
  PyStr.contains "<" t = false → PyStr.contains "<br>" t = false.
Proof.
  induction t as [|c t IH]; intros Ht; [reflexivity|].
  apply no_lt_cons in Ht as [Hc Ht].
  cbn [PyStr.contains]. by rewrite (prefix_br_other c t Hc), IH.
Qed.

Lemma no_lt_app (s t : string) :
  PyStr.contains "<" s = false → PyStr.contains "<" t = false →
  PyStr.contains "<" (s +:+ t) = false.
Proof.
  induction s as [|c s IH]; intros Hs Ht; [done|].
  apply no_lt_cons in Hs as [Hc Hs].
  change (String c s +:+ t) with (String c (s +:+ t)).
  cbn [PyStr.contains]. rewrite IH by done.
  change (String.prefix "<" (String c (s +:+ t)))
    with (if Ascii.ascii_dec "<" c then String.prefix "" (s +:+ t) else false).
  destruct (Ascii.ascii_dec "<" c) as [Heq|]; [by destruct Hc|done].
Qed.

(** The names and abbreviations of the table: no name holds a [<],
    no abbreviation is empty. *)
Lemma STATE_ABBREV_items_text :
  Forall (λ kv, PyStr.contains "<" kv.1 = false ∧ PyStr.truthy kv.2 = true)
    STATE_ABBREV_items.
Proof. compute_done. Qed.

Lemma STATE_ABBREV_text (state abbrev : string) :
  STATE_ABBREV !! state = Some abbrev →
  PyStr.contains "<" state = false ∧ PyStr.truthy abbrev = true.
Proof.
  intros Hs. apply dict_lookup_elem in Hs.
  by apply (proj1 (Forall_forall _ _) STATE_ABBREV_items_text (state, abbrev)).
Qed.

(** ** More on click resolution *)

Lemma handle_state_click_no_customdata (p : Point) (current_state : option string) :
  no_usable_customdata p →
  handle_state_click (Some "choropleth-map") (Some p) current_state
  = if PyStr.contains "<br>" (default "" (point_text p)) then
      if decide (known_state (PyStr.before "<br>" (default "" (point_text p))))
      then Some (PyStr.before "<br>" (default "" (point_text p)))
      else by_location p current_state
    else by_location p current_state.
Proof.
  intros Hcd. unfold handle_state_click, by_location, known_state.
  rewrite decide_True by reflexivity. cbv zeta.
  destruct (PyStr.contains "<br>" _).
  - case_decide; by destruct Hcd as [-> | ->].
  - by destruct Hcd as [-> | ->].
Qed.

Lemma known_state_truthy (state_name : string) :
  known_state state_name → PyStr.truthy state_name = true.
Proof.
  intros [abbrev Habbrev]. destruct state_name; [|done].
  by vm_compute in Habbrev.
Qed.

Lemma by_location_holds_state (p : Point) (current_state : option string) :
  holds_state current_state = true →
  holds_state (by_location p current_state) = true.
Proof.
  intros Hcur. unfold by_location.
  destruct (location p) as [loc|]; [|done].
  destruct (PyStr.truthy loc); [|done].
  destruct (ABBREV_TO_STATE !! loc) as [state_name|] eqn:Hloc; [|done].
  apply known_state_truthy. exact (ABBREV_TO_STATE_known loc state_name Hloc).
Qed.

(** X8. Only customdata can clear the selection.  With a state
    selected (a non-empty name in the store), a call whose payload has
    no customdata to use, whatever its trigger, text and location,
    leaves a state selected.  A map click with a non-empty customdata
    leaves a state selected exactly when the first entry of the
    customdata is a non-empty string: a null or empty first entry
    clears the selection. *)
Theorem handle_state_click_keeps_selection (triggered : option string)
    (map_click : option Point) (current_state : option string) :
  holds_state current_state = true →
  ((∀ p, map_click = Some p → no_usable_customdata p) →
     holds_state (handle_state_click triggered map_click current_state) = true)
  ∧ (∀ p c cs, triggered = Some "choropleth-map" → map_click = Some p →
       customdata p = Some (c :: cs) →
       holds_state (handle_state_click triggered map_click current_state)
       = holds_state c).
Proof.
  intros Hcur. split.
  - intros Hun.
    destruct (decide (triggered = Some "choropleth-map")) as [->|Hother].
    + destruct map_click as [p|]; [|exact Hcur].
      rewrite handle_state_click_no_customdata by (by apply Hun).
      destruct (PyStr.contains "<br>" _);
        [case_decide as Hknown; [by apply known_state_truthy|]|];
        by apply by_location_holds_state.
    + unfold handle_state_click. by rewrite decide_False.
  - intros p c cs -> -> Hcd. unfold handle_state_click.
    rewrite decide_True by reflexivity. by rewrite Hcd.
Qed.

Lemma handle_state_click_keeps_selection_witness :
  holds_state
    (handle_state_click (Some "choropleth-map")
       (Some {| customdata := Some []; point_text := Some "";
                location := Some "" |})
       (Some "Texas")) = true
  ∧ holds_state
      (handle_state_click (Some "choropleth-map")
         (Some {| customdata := Some [None]; point_text := Some "Ohio";
                  location := Some "OH" |})
         (Some "Texas")) = false.
Proof.
  split.
  - apply (handle_state_click_keeps_selection _ _ (Some "Texas") eq_refl).
    intros p [= <-]. by right.
  - exact (proj2 (handle_state_click_keeps_selection
                    (Some "choropleth-map")
                    (Some {| customdata := Some [None]; point_text := Some "Ohio";
                             location := Some "OH" |})
                    (Some "Texas") eq_refl)
             _ None [] eq_refl eq_refl eq_refl).
Defined.

Lemma click_by_text (p : Point) (current_state : option string) (t : string) :
  no_usable_customdata p →
  point_text p = Some t → PyStr.contains "<br>" t = true →
  known_state (PyStr.before "<br>" t) →
  handle_state_click (Some "choropleth-map") (Some p) current_state
  = Some (PyStr.before "<br>" t).
Proof.
  intros Hcd Ht Hbr Hknown.
  rewrite (handle_state_click_no_customdata p current_state Hcd), Ht.
  cbn [default from_option id]. rewrite Hbr. by rewrite decide_True.
Qed.

Lemma click_by_location (p : Point) (current_state : option string)
    (loc state_name : string) :
  no_usable_customdata p → no_state_in_text p →
  location p = Some loc → ABBREV_TO_STATE !! loc = Some state_name →
  handle_state_click (Some "choropleth-map") (Some p) current_state
  = Some state_name.
Proof.
  intros Hcd Htext Hloc Hstate.
  rewrite (handle_state_click_no_customdata p current_state Hcd).
  assert (by_location p current_state = Some state_name) as Hby.
  { unfold by_location. rewrite Hloc.
    destruct loc as [|c loc]; [by vm_compute in Hstate|].
    cbn [PyStr.truthy]. by rewrite Hstate. }
  destruct (point_text p) as [t|] eqn:Ht; [|exact Hby].
  cbn [default from_option id].
  destruct (PyStr.contains "<br>" t) eqn:Hbr; [|exact Hby].
  case_decide as Hknown; [|exact Hby].
  by destruct (Htext t Ht).
Qed.

(** X9. The shapes of a payload are tried in a fixed order, and a
    shape that names a state decides the result whatever the prior
    selection was: a known state name before [<br>] in the text wins
    over the location; the location is used when the text names no
    state; a call not triggered by the map returns the prior
    selection. *)
Theorem handle_state_click_order (p : Point) (current_state : option string) :
  no_usable_customdata p →
  (∀ t, point_text p = Some t → PyStr.contains "<br>" t = true →
        known_state (PyStr.before "<br>" t) →
        handle_state_click (Some "choropleth-map") (Some p) current_state
        = Some (PyStr.before "<br>" t))
  ∧ (no_state_in_text p →
     ∀ loc state_name, location p = Some loc →
       ABBREV_TO_STATE !! loc = Some state_name →
       handle_state_click (Some "choropleth-map") (Some p) current_state
       = Some state_name)
  ∧ (∀ triggered, triggered ≠ Some "choropleth-map" →
       handle_state_click triggered (Some p) current_state = current_state).
Proof.
  intros Hcd. split_and!.
  - intros t. by apply click_by_text.
  - intros Htext loc state_name. by apply click_by_location.
  - intros triggered Hother. unfold handle_state_click.
    by rewrite decide_False.
Qed.

Lemma handle_state_click_order_witness :
  handle_state_click (Some "choropleth-map")
    (Some {| customdata := None;
             point_text := Some "Ohio<br>Rate: 14.1 per 100k<br>Region: East North Central";
             location := Some "TX" |})
    (Some "Utah") = Some "Ohio"
  ∧ handle_state_click (Some "choropleth-map")
      (Some {| customdata := None; point_text := Some "Ohio (filtered)";
               location := Some "OH" |})
      None = Some "Ohio".
Proof.
  split.
  - set (p := {| customdata := None;
                 point_text := Some "Ohio<br>Rate: 14.1 per 100k<br>Region: East North Central";
                 location := Some "TX" |}).
    assert (no_usable_customdata p) as Hcd by (by left).
    apply (proj1 (handle_state_click_order p (Some "Utah") Hcd)
             "Ohio<br>Rate: 14.1 per 100k<br>Region: East North Central");
      [reflexivity|reflexivity|].
    exists "OH". by vm_compute.
  - set (p := {| customdata := None; point_text := Some "Ohio (filtered)";
                 location := Some "OH" |}).
    assert (no_usable_customdata p) as Hcd by (by left).
    apply (proj1 (proj2 (handle_state_click_order p None Hcd)))
      with (loc := "OH"); [|reflexivity|by vm_compute].
    intros t [= <-] [Hbr _]. by vm_compute in Hbr.
Defined.

(** X10. Clicking a state on the map selects that state, be it drawn
    in its band colour or filtered out: when every row carries the
    abbreviation the table gives its state, a click on any point the
    figure shows resolves to the state of a row of the selected year
    at that location, whatever was selected before. *)
Theorem click_on_map_selects_state (df : list RateRecord) (year : Z)
    (active_bands : list string) (selected_state current_state : option string)
    (loc txt : string) :
  (∀ r, r ∈ df → STATE_ABBREV !! State r = Some (Abbrev r)) →
  (loc, txt) ∈ shown_hover (update_map df year active_bands selected_state) →
  ∃ r, r ∈ rows_of_year df year ∧ Abbrev r = loc
       ∧ handle_state_click (Some "choropleth-map")
           (Some {| customdata := None; point_text := Some txt;
                    location := Some loc |})
           current_state
         = Some (State r).
Proof.
  intros Hrows Hshown.
  set (p := {| customdata := None; point_text := Some txt;
               location := Some loc |}).
  assert (no_usable_customdata p) as Hcd by (by left).
  pose proof (click_by_text p current_state) as Hby_text.
  pose proof (click_by_location p current_state) as Hby_location.
  apply shown_hover_update_map in Hshown
    as [(r & Hr & _ & _ & Hloc & Htxt)|(r & Hr & _ & Hloc & Htxt)];
    exists r; (split; [done|]); (split; [done|]).
  all: assert (r ∈ df) as Hdf
    by (by apply list_elem_of_filter in Hr as [_ Hr]).
  all: destruct (STATE_ABBREV_text _ _ (Hrows r Hdf)) as [Hname Habbrev].
  - assert (PyStr.before "<br>" txt = State r) as Hbefore.
    { rewrite Htxt. unfold hover_full.
      change ("<br>Rate: " +:+ ?rest) with ("<br>" +:+ "Rate: " +:+ rest).
      by apply before_br. }
    rewrite <- Hbefore. apply Hby_text; [done|reflexivity| |].
    + rewrite Htxt. apply (contains_br (State r)).
    + rewrite Hbefore. unfold known_state. rewrite (Hrows r Hdf). by eexists.
  - apply Hby_location with (loc := loc); [done| |reflexivity|].
    + intros t [= <-] [Hbr _]. rewrite Htxt in Hbr.
      rewrite contains_br_no_lt in Hbr; [done|]. by apply no_lt_app.
    + rewrite Hloc. destruct STATE_ABBREV_items_NoDup as [Hkeys Hvalues].
      by apply (invert_items_lookup STATE_ABBREV_items), Hrows.
Qed.

Lemma click_on_map_selects_state_witness :
  let row := example_row "Texas" "TX" 2023 14.4%Q in
  ∃ r, r ∈ rows_of_year [row] 2023 ∧ Abbrev r = "TX"
       ∧ handle_state_click (Some "choropleth-map")
           (Some {| customdata := None; point_text := Some "Texas (filtered)";
                    location := Some "TX" |})
           (Some "Ohio")
         = Some (State r).
Proof.
  intros row.
  apply (click_on_map_selects_state [row] 2023 ["< 10"] None (Some "Ohio")).
  - intros r ->%list_elem_of_singleton. by vm_compute.
  - vm_compute. left.
Defined.

(** ** The traces of the map *)

Lemma filter_key_or {A : Type} (f : A → string) (k : string)
    (keys : list string) (l : list A) :
  k ∉ keys →
  filter (λ r, f r ∈ k :: keys) l
  ≡ₚ filter (λ r, f r = k) l ++ filter (λ r, f r ∈ keys) l.
Proof.
  intros Hk. induction l as [|r l IH]; [done|].
  destruct (decide (f r = k)) as [Hrk|Hrk].
  - rewrite (filter_cons_True (λ r, f r ∈ k :: keys)) by (rewrite Hrk; by left).
    rewrite (filter_cons_True (λ r, f r = k)) by done.
    rewrite (filter_cons_False (λ r, f r ∈ keys)) by (by rewrite Hrk).
    cbn. by rewrite IH.
  - rewrite (filter_cons_False (λ r, f r = k)) by done.
    destruct (decide (f r ∈ keys)) as [Hin|Hnotin].
    + rewrite (filter_cons_True (λ r, f r ∈ k :: keys)) by (by right).
      rewrite (filter_cons_True (λ r, f r ∈ keys)) by done.
      rewrite IH. apply Permutation_middle.
    + rewrite (filter_cons_False (λ r, f r ∈ k :: keys))
        by (rewrite elem_of_cons; tauto).
      by rewrite (filter_cons_False (λ r, f r ∈ keys)) by done.
Qed.

(** Rows grouped key by key are the rows with one of the keys. *)
Lemma concat_filter_keys {A : Type} (f : A → string) (keys : list string)
    (l : list A) :
  NoDup keys →
  concat ((λ k, filter (λ r, f r = k) l) <$> keys)
  ≡ₚ filter (λ r, f r ∈ keys) l.
Proof.
  induction 1 as [|k keys Hk _ IH]; cbn.
  - induction l as [|r l IHl]; [done|].
    by rewrite filter_cons_False by (apply not_elem_of_nil).
  - by rewrite IH, filter_key_or.
Qed.

Lemma label_traces_name (rate_lookup : gmap string Q) :
  Forall (λ t, name t = "") (label_traces rate_lookup).
Proof.
  apply Forall_forall. intros t Ht. unfold label_traces in Ht. cbv zeta in Ht.
  apply list_elem_of_bind in Ht as (sc & Ht & _).
  destruct (rate_lookup !! sc.1); [|by apply elem_of_nil in Ht].
  by apply list_elem_of_singleton in Ht as ->.
Qed.

Lemma small_state_traces_name (rate_lookup : gmap string Q) :
  Forall (λ t, name t = "") (small_state_traces rate_lookup).
Proof.
  apply Forall_forall. intros t Ht. unfold small_state_traces in Ht.
  apply list_elem_of_bind in Ht as (sc & Ht & _).
  destruct (rate_lookup !! sc.1); [|by apply elem_of_nil in Ht].
  cbv zeta in Ht. rewrite !elem_of_cons, elem_of_nil in Ht.
  by destruct Ht as [-> | [-> | []]].
Qed.

Lemma selected_trace_name (selected_state : option string) :
  Forall (λ t, name t = "") (selected_trace selected_state).
Proof.
  unfold selected_trace. destruct selected_state as [sel|]; [|constructor].
  destruct (PyStr.truthy sel); [|constructor].
  destruct (STATE_ABBREV !! sel); repeat constructor.
Qed.

Lemma band_traces_locations (df_year : list RateRecord)
    (active_bands keys : list string) :
  concat (locations <$> (band_trace df_year active_bands <$> keys))
  = Abbrev <$> concat ((λ k, filter (λ r, Rate_Band r = k) df_year) <$> keys).
Proof.
  induction keys as [|k keys IH]; [done|].
  cbn [fmap list_fmap concat]. rewrite fmap_app. f_equal. exact IH.
Qed.

(** X11. The figure always starts with the six band traces, in the
    order of [BAND_ORDER], a trace being drawn exactly when its band
    is active; between them they hold every row of the year with a
    band of [BAND_ORDER] once.  The grey [Filtered] trace is in the
    figure exactly when a row of the year has a band that is not
    active. *)
Theorem update_map_band_traces (df : list RateRecord) (year : Z)
    (active_bands : list string) (selected_state : option string) :
  let fig := update_map df year active_bands selected_state in
  name <$> take 6 fig = BAND_ORDER
  ∧ (∀ t, t ∈ take 6 fig → (visible t = true ↔ name t ∈ active_bands))
  ∧ concat (locations <$> take 6 fig)
    ≡ₚ Abbrev <$> filter (λ r, Rate_Band r ∈ BAND_ORDER) (rows_of_year df year)
  ∧ ((∃ t, t ∈ fig ∧ name t = "Filtered")
     ↔ ∃ r, r ∈ rows_of_year df year ∧ (Rate_Band r ∉ active_bands)).
Proof.
  intros fig.
  assert (take 6 fig = band_trace (rows_of_year df year) active_bands <$> BAND_ORDER)
    as Htake.
  { unfold fig, update_map. cbv zeta.
    change 6 with (length (band_trace (rows_of_year df year) active_bands
                             <$> BAND_ORDER)).
    by rewrite take_app_length. }
  rewrite Htake. split_and!.
  - rewrite <- list_fmap_compose. by apply list_fmap_id.
  - intros t (band & -> & Hband)%list_elem_of_fmap.
    unfold band_trace, Choropleth. cbn [visible name].
    apply bool_decide_eq_true.
  - rewrite band_traces_locations.
    by rewrite (concat_filter_keys Rate_Band BAND_ORDER _ BAND_ORDER_NoDup).
  - unfold fig, update_map. cbv zeta. split.
    + intros (t & Ht & Hname).
      rewrite !elem_of_app in Ht. destruct Ht as [Ht|[Ht|[Ht|[Ht|Ht]]]].
      * apply list_elem_of_fmap in Ht as (band & -> & Hband).
        unfold band_trace, Choropleth in Hname. cbn [name] in Hname.
        rewrite Hname in Hband. exfalso. clear -Hband.
        unfold BAND_ORDER in Hband. rewrite !elem_of_cons, elem_of_nil in Hband.
        by repeat destruct Hband as [Hband|Hband].
      * unfold filtered_trace in Ht. cbv zeta in Ht.
        destruct (filter _ (rows_of_year df year)) as [|r rest] eqn:Hf;
          [by apply elem_of_nil in Ht|].
        assert (r ∈ filter (λ r, Rate_Band r ∉ active_bands) (rows_of_year df year))
          as Hr by (rewrite Hf; by left).
        apply list_elem_of_filter in Hr as [Hb Hr]. by exists r.
      * pose proof (proj1 (Forall_forall _ _) (label_traces_name _) t Ht) as Hn.
        cbv beta in Hn. by rewrite Hn in Hname.
      * pose proof (proj1 (Forall_forall _ _) (small_state_traces_name _) t Ht) as Hn.
        cbv beta in Hn. by rewrite Hn in Hname.
      * pose proof (proj1 (Forall_forall _ _) (selected_trace_name _) t Ht) as Hn.
        cbv beta in Hn. by rewrite Hn in Hname.
    + intros (r & Hr & Hb).
      assert (r ∈ filter (λ r, Rate_Band r ∉ active_bands) (rows_of_year df year))
        as Hin by (by apply list_elem_of_filter).
      unfold filtered_trace. cbv zeta.
      destruct (filter _ (rows_of_year df year)) as [|r' rest] eqn:Hf;
        [by apply elem_of_nil in Hin|].
      rewrite decide_True by (cbn; lia).
      exists (Choropleth (Abbrev <$> r' :: rest) "#e9ecef" DARK_BORDER 0.5%Q
                "text" (hover_filtered <$> r' :: rest) true "Filtered").
      split; [|reflexivity].
      rewrite !elem_of_app. right; left. by left.
Qed.

(** X12. The selection changes nothing in the figure but its last
    trace: for a selected state of the table the figure is the figure
    without selection followed by the outline of that state, whether
    or not the state has a row in the year or is filtered out; a null,
    empty or unknown selection adds nothing. *)
Theorem update_map_selection (df : list RateRecord) (year : Z)
    (active_bands : list string) (selected_state : option string) :
  update_map df year active_bands selected_state
  = update_map df year active_bands None ++ selected_trace selected_state
  ∧ (∀ state abbrev, selected_state = Some state →
       STATE_ABBREV !! state = Some abbrev →
       selected_trace selected_state
       = [ Choropleth [abbrev] "rgba(0,0,0,0)" ACCENT_CYAN 3 "skip" [] true "" ])
  ∧ (match selected_state with
     | Some state => state = "" ∨ STATE_ABBREV !! state = None
     | None => True
     end → selected_trace selected_state = []).
Proof.
  split_and!.
  - unfold update_map. cbv zeta. cbn [selected_trace].
    by rewrite app_nil_r, <- !app_assoc.
  - intros state abbrev -> Hstate. unfold selected_trace.
    destruct state as [|c state]; [by vm_compute in Hstate|].
    cbn [PyStr.truthy]. by rewrite Hstate.
  - destruct selected_state as [state|]; [|done].
    intros [-> | Hnone]; [done|].
    unfold selected_trace. rewrite Hnone. by destruct (PyStr.truthy state).
Qed.

Lemma update_map_selection_witness :
  selected_trace (Some "Texas")
  = [ Choropleth ["TX"] "rgba(0,0,0,0)" ACCENT_CYAN 3 "skip" [] true "" ]
  ∧ selected_trace (Some "Atlantis") = [].
Proof.
  split.
  - apply (proj1 (proj2 (update_map_selection [] 2023 [] (Some "Texas")))
             "Texas" "TX"); [reflexivity|by vm_compute].
  - apply (proj2 (proj2 (update_map_selection [] 2023 [] (Some "Atlantis")))).
    right. by vm_compute.
Defined.

(** Every state of the table has a place for its label: among the
    regular states or among the small ones. *)
Lemma STATE_ABBREV_items_placed :
  Forall (λ kv,
            kv.1 ∈ (filter (λ sc, SMALL_STATES !! sc.1 = None) STATE_COORDS_items).*1
            ∨ kv.1 ∈ SMALL_STATES_items.*1)
    STATE_ABBREV_items.
Proof. compute_done. Qed.

(** X13. Every state of the table with a row in the selected year is
    labelled: the figure holds a text trace with the abbreviation of
    the state, which takes no part in hovering. *)
Theorem update_map_labels (df : list RateRecord) (year : Z)
    (active_bands : list string) (selected_state : option string)
    (r : RateRecord) :
  r ∈ rows_of_year df year → known_state (State r) →
  ∃ t, t ∈ update_map df year active_bands selected_state
       ∧ kind t = "scattergeo" ∧ mode t = "text"
       ∧ text t = [STATE_ABBREV !!! State r]
       ∧ hoverinfo t = "skip".
Proof.
  intros Hr [abbrev Habbrev].
  set (rate_lookup :=
         dict_of_items ((λ r, (State r, Rate r)) <$> rows_of_year df year)).
  assert (is_Some (rate_lookup !! State r)) as [rate Hrate].
  { apply dict_lookup_is_Some. rewrite <- list_fmap_compose.
    apply list_elem_of_fmap. by exists r. }
  apply dict_lookup_elem in Habbrev.
  pose proof (proj1 (Forall_forall _ _) STATE_ABBREV_items_placed
                (State r, abbrev) Habbrev) as Hplaced.
  cbn [fst] in Hplaced.
  unfold update_map. cbv zeta. fold rate_lookup.
  destruct Hplaced as [Hregular|Hsmall].
  - apply list_elem_of_fmap in Hregular as (sc & Hsc & Hin).
    exists (Scattergeo [sc.2.1] [sc.2.2] "text" [STATE_ABBREV !!! sc.1]
              (if Qlt_le_dec rate 25 then "#212529" else "#ffffff") 0 "skip").
    rewrite Hsc. split; [|done].
    rewrite !elem_of_app. right; right; left.
    unfold label_traces. cbv zeta. apply list_elem_of_bind.
    exists sc. split; [|done]. rewrite <- Hsc, Hrate. by left.
  - apply list_elem_of_fmap in Hsmall as (sc & Hsc & Hin).
    exists (Scattergeo [(label sc.2).1] [(label sc.2).2] "text"
              [STATE_ABBREV !!! sc.1] TEXT_PRIMARY 0 "skip").
    rewrite Hsc. split; [|done].
    rewrite !elem_of_app. right; right; right; left.
    unfold small_state_traces. apply list_elem_of_bind.
    exists sc. split; [|done]. rewrite <- Hsc, Hrate. cbv zeta. right. by left.
Qed.

Lemma update_map_labels_witness :
  let row := example_row "Vermont" "VT" 2023 14.4%Q in
  ∃ t, t ∈ update_map [row] 2023 ["< 10"] None
       ∧ kind t = "scattergeo" ∧ mode t = "text"
       ∧ text t = [STATE_ABBREV !!! State row]
       ∧ hoverinfo t = "skip".
Proof.
  intros row. apply update_map_labels.
  - vm_compute. left.
  - exists "VT". by vm_compute.
Defined.

(** X14. The labels of the map.  Every text trace of the figure
    shows the abbreviation of a state that has a rate in the year's
    lookup.  On a small state, labelled at the end of a leader line,
    the label is dark whatever the rate; on any other state it is
    white exactly when the rate is in one of the two top bands and
    dark exactly when it is in one of the four lower bands. *)
Theorem update_map_label_color (df : list RateRecord) (year : Z)
    (active_bands : list string) (selected_state : option string) (t : Trace) :
  t ∈ update_map df year active_bands selected_state → mode t = "text" →
  ∃ state rate,
    dict_of_items ((λ r, (State r, Rate r)) <$> rows_of_year df year) !! state
    = Some rate
    ∧ text t = [STATE_ABBREV !!! state]
    ∧ (is_Some (SMALL_STATES !! state) → color t = "#212529")
    ∧ (SMALL_STATES !! state = None →
         (color t = "#ffffff" ↔ get_rate_band rate ∈ ["25-30"; "> 30"])
         ∧ (color t = "#212529"
            ↔ get_rate_band rate ∈ ["< 10"; "10-15"; "15-20"; "20-25"])).
Proof.
  unfold update_map. cbv zeta.
  set (rate_lookup :=
         dict_of_items ((λ r, (State r, Rate r)) <$> rows_of_year df year)).
  rewrite !elem_of_app.
  intros [Hband|[Hfiltered|[Hlabel|[Hsmall|Hselected]]]] Hmode.
  - apply list_elem_of_fmap in Hband as (band & -> & _). discriminate Hmode.
  - unfold filtered_trace in Hfiltered. cbv zeta in Hfiltered.
    case_decide; [|by apply elem_of_nil in Hfiltered].
    apply list_elem_of_singleton in Hfiltered as ->. discriminate Hmode.
  - unfold label_traces in Hlabel. cbv zeta in Hlabel.
    apply list_elem_of_bind in Hlabel as (sc & Ht & Hsc).
    apply list_elem_of_filter in Hsc as [Hregular _].
    destruct (rate_lookup !! sc.1) as [rate|] eqn:Hrate;
      [|by apply elem_of_nil in Ht].
    apply list_elem_of_singleton in Ht as ->.
    exists sc.1, rate. split; [done|]. split; [done|]. split.
    { intros [place Hplace]. by rewrite Hregular in Hplace. }
    intros _. unfold Scattergeo, get_rate_band. cbn [color].
    destruct (Qlt_le_dec rate 25) as [Hlt|Hge];
      repeat (destruct (Qlt_le_dec rate _); try lra).
    all: split; split; intros H;
      first [ reflexivity | discriminate H | compute_done
            | exfalso; revert H; compute_done ].
  - unfold small_state_traces in Hsmall.
    apply list_elem_of_bind in Hsmall as (sc & Ht & Hsc).
    destruct (rate_lookup !! sc.1) as [rate|] eqn:Hrate;
      [|by apply elem_of_nil in Ht].
    cbv zeta in Ht. rewrite !elem_of_cons, elem_of_nil in Ht.
    destruct Ht as [-> | [-> | []]]; [discriminate Hmode|].
    exists sc.1, rate. split; [done|]. split; [done|]. split; [done|].
    intros Hnone.
    assert (is_Some (SMALL_STATES !! sc.1)) as [place Hplace].
    { apply dict_lookup_is_Some, list_elem_of_fmap. by exists sc. }
    by rewrite Hnone in Hplace.
  - unfold selected_trace in Hselected.
    destruct selected_state as [sel|]; [|by apply elem_of_nil in Hselected].
    destruct (PyStr.truthy sel); [|by apply elem_of_nil in Hselected].
    destruct (STATE_ABBREV !! sel); [|by apply elem_of_nil in Hselected].
    apply list_elem_of_singleton in Hselected as ->. discriminate Hmode.
Qed.

Lemma update_map_label_color_witness :
  let df := [example_row "Vermont" "VT" 2023 31] in
  let t := Scattergeo [(-64.0)%Q] [46.4%Q] "text" ["VT"] TEXT_PRIMARY 0 "skip" in
  ∃ state rate,
    dict_of_items ((λ r, (State r, Rate r)) <$> rows_of_year df 2023) !! state
    = Some rate
    ∧ text t = [STATE_ABBREV !!! state]
    ∧ (is_Some (SMALL_STATES !! state) → color t = "#212529")
    ∧ (SMALL_STATES !! state = None →
         (color t = "#ffffff" ↔ get_rate_band rate ∈ ["25-30"; "> 30"])
         ∧ (color t = "#212529"
            ↔ get_rate_band rate ∈ ["< 10"; "10-15"; "15-20"; "20-25"])).
Proof.
  intros df t.
  apply (update_map_label_color df 2023 BAND_ORDER None t); [|reflexivity].
  vm_compute. repeat first [left | right].
Defined.

(** ** More on the detail statistics *)

(** With two rows or more every lookup of [update_state_stats]
    succeeds. *)
Lemma update_state_stats_two_rows (df : list RateRecord)
    (Series_mean : list Q → Q) (state_name : string) (r0 r1 : RateRecord) :
  PyStr.truthy state_name = true →
  state_series df state_name !! 0 = Some r0 →
  state_series df state_name !! 1 = Some r1 →
  ∃ lo hi inc dec row_lo row_hi row_inc row_dec,
    Pandas.idxmin (Some <$> (Rate <$> state_series df state_name)) = Some lo
    ∧ Pandas.idxmax (Some <$> (Rate <$> state_series df state_name)) = Some hi
    ∧ Pandas.idxmax (Pandas.diff (Rate <$> state_series df state_name)) = Some inc
    ∧ Pandas.idxmin (Pandas.diff (Rate <$> state_series df state_name)) = Some dec
    ∧ state_series df state_name !! lo.1 = Some row_lo
    ∧ state_series df state_name !! hi.1 = Some row_hi
    ∧ state_series df state_name !! inc.1 = Some row_inc
    ∧ state_series df state_name !! dec.1 = Some row_dec
    ∧ update_state_stats df Series_mean (Some state_name)
      = Returns (Details state_name
          {| min_rate := lo.2;  min_year := Year row_lo;
             max_rate := hi.2;  max_year := Year row_hi;
             avg_rate := Series_mean (Rate <$> state_series df state_name);
             inc_Change := inc.2;  inc_Year := Year row_inc;
             dec_Change := dec.2;  dec_Year := Year row_dec |}).
Proof.
  intros Hname. unfold update_state_stats. rewrite Hname. cbn [negb]. cbv zeta.
  generalize (state_series df state_name). intros s H0 H1.
  destruct (first_best_is_Some (λ v x, Pandas.Qltb v x) _ 0 _
              (lookup_rate_column s 0 r0 H0)) as [lo Hlo].
  destruct (first_best_is_Some (λ v x, Pandas.Qltb x v) _ 0 _
              (lookup_rate_column s 0 r0 H0)) as [hi Hhi].
  assert (Pandas.diff (Rate <$> s) !! 1 = Some (Some (Rate r1 - Rate r0)%Q))
    as Hd1.
  { by rewrite diff_lookup_S, !list_lookup_fmap, H0, H1. }
  destruct (first_best_is_Some (λ v x, Pandas.Qltb x v) _ 1 _ Hd1) as [inc Hinc].
  destruct (first_best_is_Some (λ v x, Pandas.Qltb v x) _ 1 _ Hd1) as [dec Hdec].
  change (Pandas.idxmin (Some <$> (Rate <$> s)) = Some lo) in Hlo.
  change (Pandas.idxmax (Some <$> (Rate <$> s)) = Some hi) in Hhi.
  change (Pandas.idxmax (Pandas.diff (Rate <$> s)) = Some inc) in Hinc.
  change (Pandas.idxmin (Pandas.diff (Rate <$> s)) = Some dec) in Hdec.
  destruct lo as [ilo vlo], hi as [ihi vhi], inc as [iinc vinc], dec as [idec vdec].
  destruct (idxmin_Some _ _ _ Hlo) as ((row_lo & Hrow_lo & _)%lookup_rate_column_inv & _).
  destruct (idxmax_Some _ _ _ Hhi) as ((row_hi & Hrow_hi & _)%lookup_rate_column_inv & _).
  destruct (idxmax_Some _ _ _ Hinc)
    as ((k & vp & vc & -> & _ & Hc & _)%diff_lookup_Some & _).
  destruct (idxmin_Some _ _ _ Hdec)
    as ((k' & vp' & vc' & -> & _ & Hc' & _)%diff_lookup_Some & _).
  rewrite list_lookup_fmap in Hc, Hc'.
  destruct (s !! S k) as [row_inc|] eqn:Hrow_inc; [|done].
  destruct (s !! S k') as [row_dec|] eqn:Hrow_dec; [|done].
  exists (ilo, vlo), (ihi, vhi), (S k, vinc), (S k', vdec),
    row_lo, row_hi, row_inc, row_dec.
  cbn [fst snd]. split_and!; try done.
  rewrite Hlo, Hhi, Hinc, Hdec. cbn [locate outcome_bind fst snd].
  rewrite Hrow_lo, Hrow_hi, Hrow_inc, Hrow_dec. cbn [locate outcome_bind].
  by destruct s.
Qed.

(** X15. What the detail panel does is decided by the number of rows
    of the state: the prompt for a null or empty selection, [No data]
    for a state without rows, the figures for a state with two rows
    or more.  With a single row, which the loaded frame never has,
    there is no year-over-year change to search and the callback
    raises. *)
Theorem update_state_stats_outcome (df : list RateRecord)
    (Series_mean : list Q → Q) (state_name : string) :
  PyStr.truthy state_name = true →
  update_state_stats df Series_mean None = Returns Placeholder
  ∧ update_state_stats df Series_mean (Some "") = Returns Placeholder
  ∧ ((∀ r, r ∈ df → State r ≠ state_name) →
       update_state_stats df Series_mean (Some state_name)
       = Returns (NoData state_name))
  ∧ (length (state_series df state_name) = 1 →
       update_state_stats df Series_mean (Some state_name) = Raises)
  ∧ (2 ≤ length (state_series df state_name) →
       ∃ rep, update_state_stats df Series_mean (Some state_name)
              = Returns (Details state_name rep)).
Proof.
  intros Hname. split_and!; try reflexivity.
  - intros Hnone.
    assert (state_series df state_name = []) as Hs.
    { destruct (state_series df state_name) as [|r s] eqn:Hs; [done|].
      assert (r ∈ state_series df state_name) as Hr by (rewrite Hs; by left).
      apply state_series_elem in Hr as [Hr Hstate]. by destruct (Hnone r Hr). }
    unfold update_state_stats. rewrite Hname. cbn [negb]. cbv zeta.
    by rewrite Hs.
  - intros Hlen. unfold update_state_stats. rewrite Hname. cbn [negb]. cbv zeta.
    destruct (state_series df state_name) as [|r [|r' s]]; try done.
  - intros Hlen.
    destruct (state_series df state_name !! 0) as [r0|] eqn:H0;
      [|apply lookup_ge_None in H0; lia].
    destruct (state_series df state_name !! 1) as [r1|] eqn:H1;
      [|apply lookup_ge_None in H1; lia].
    destruct (update_state_stats_two_rows df Series_mean state_name r0 r1
                Hname H0 H1)
      as (lo & hi & inc & dec & row_lo & row_hi & row_inc & row_dec & Hall).
    eexists. apply Hall.
Qed.

Lemma update_state_stats_outcome_witness :
  update_state_stats three_years mean_left_to_right (Some "Utah")
  = Returns (NoData "Utah")
  ∧ update_state_stats (take 2 three_years) mean_left_to_right (Some "Texas")
    = Raises.
Proof.
  split.
  - apply (update_state_stats_outcome three_years _ "Utah"); [reflexivity|].
    intros r Hr. unfold three_years in Hr.
    rewrite !elem_of_cons, elem_of_nil in Hr.
    destruct Hr as [-> | [-> | [-> | [-> | [-> | [-> | []]]]]]]; discriminate.
  - apply (update_state_stats_outcome (take 2 three_years) _ "Texas");
      reflexivity.
Defined.

(** X16. Whenever the panel shows figures they are consistent: the
    minimum shown is at most the maximum shown and every rate of the
    state lies between them, the largest decrease is at most the
    largest increase, and each year shown is the year of a row of the
    state. *)
Theorem update_state_stats_consistent (df : list RateRecord)
    (Series_mean : list Q → Q) (state_name : string) (rep : StatsReport) :
  update_state_stats df Series_mean (Some state_name)
  = Returns (Details state_name rep) →
  (min_rate rep <= max_rate rep)%Q
  ∧ (∀ r, r ∈ df → State r = state_name →
       (min_rate rep <= Rate r)%Q ∧ (Rate r <= max_rate rep)%Q)
  ∧ (dec_Change rep <= inc_Change rep)%Q
  ∧ (∀ y, y ∈ [min_year rep; max_year rep; inc_Year rep; dec_Year rep] →
       ∃ r, r ∈ df ∧ State r = state_name ∧ Year r = y).
Proof.
  intros Hstats.
  assert (PyStr.truthy state_name = true) as Hname.
  { destruct state_name; [discriminate Hstats|done]. }
  destruct (state_series df state_name) as [|r0 [|r1 s]] eqn:Hs.
  - unfold update_state_stats in Hstats. rewrite Hname, Hs in Hstats.
    discriminate Hstats.
  - unfold update_state_stats in Hstats. rewrite Hname, Hs in Hstats.
    discriminate Hstats.
  - destruct (update_state_stats_two_rows df Series_mean state_name r0 r1 Hname)
      as (lo & hi & inc & dec & row_lo & row_hi & row_inc & row_dec
          & Hlo & Hhi & Hinc & Hdec & Hrow_lo & Hrow_hi & Hrow_inc & Hrow_dec
          & Heval); [by rewrite Hs|by rewrite Hs|].
    rewrite Heval in Hstats. injection Hstats as <-.
    cbn [min_rate min_year max_rate max_year avg_rate
         inc_Change inc_Year dec_Change dec_Year].
    clear Heval Hs r0 r1 s.
    set (s := state_series df state_name) in *.
    destruct lo as [ilo vlo], hi as [ihi vhi], inc as [iinc vinc],
      dec as [idec vdec]. cbn [fst snd] in *.
    destruct (idxmin_Some _ _ _ Hlo) as (Hlo_at & Hlo_all & _).
    destruct (idxmax_Some _ _ _ Hhi) as (Hhi_at & Hhi_all & _).
    destruct (idxmax_Some _ _ _ Hinc) as (Hinc_at & Hinc_all & _).
    destruct (idxmin_Some _ _ _ Hdec) as (Hdec_at & _ & _).
    assert (∀ x, x ∈ Rate <$> s → (vlo <= x)%Q ∧ (x <= vhi)%Q) as Hbounds.
    { intros x (r & -> & [j Hj]%list_elem_of_lookup)%list_elem_of_fmap.
      split; [eapply Hlo_all|eapply Hhi_all]; by apply lookup_rate_column. }
    split_and!.
    + by eapply Hhi_all.
    + intros r Hr Hstate. apply Hbounds. apply list_elem_of_fmap_2.
      by apply state_series_elem.
    + by eapply Hinc_all.
    + intros y Hy. rewrite !elem_of_cons, elem_of_nil in Hy.
      assert (∀ j r, s !! j = Some r → ∃ r', r' ∈ df ∧ State r' = state_name
                                            ∧ Year r' = Year r) as Hrow.
      { intros j r Hj. exists r.
        apply list_elem_of_lookup_2, state_series_elem in Hj. tauto. }
      destruct Hy as [-> | [-> | [-> | [-> | []]]]]; by eapply Hrow.
Qed.

Lemma update_state_stats_consistent_witness :
  (11 <= 15)%Q ∧ (-4 <= 3)%Q.
Proof.
  pose proof (update_state_stats_consistent three_years mean_left_to_right
                "Texas" _ (update_state_stats_three_years mean_left_to_right))
    as (Hrange & _ & Hchange & _).
  split; assumption.
Defined.

(** ** More on the ranking *)

Lemma count_add_le (p q r : Q → bool) (l : list Q) :
  (∀ y, p y = true → r y = true) → (∀ y, q y = true → r y = true) →
  (∀ y, p y = true → q y = false) →
  (Pandas.count p l + Pandas.count q l ≤ Pandas.count r l)%Z.
Proof.
  intros Hp Hq Hpq. induction l as [|y l IH]; cbn; [lia|].
  destruct (p y) eqn:Hpy.
  - rewrite (Hpq y Hpy), (Hp y Hpy). lia.
  - destruct (q y) eqn:Hqy; [rewrite (Hq y Hqy); lia|].
    destruct (r y); lia.
Qed.

Lemma count_all (l : list Q) :
  Pandas.count (λ _, true) l = Z.of_nat (length l).
Proof. induction l as [|y l IH]; cbn [Pandas.count length]; lia. Qed.

Lemma count_ext (p q : Q → bool) (l : list Q) :
  (∀ y, p y = q y) → Pandas.count p l = Pandas.count q l.
Proof. intros Hpq. induction l as [|y l IH]; cbn; [done|]. by rewrite Hpq, IH. Qed.

Lemma state_row_rate_elem (df : list RateRecord) (state_name : string)
    (year : Z) (r : RateRecord) :
  state_row df state_name year = Some r →
  Rate r ∈ Rate <$> rows_of_year df year.
Proof.
  intros Hrow. apply list_elem_of_fmap_2.
  apply head_Some_elem_of in Hrow.
  by apply list_elem_of_filter in Hrow as [_ Hr].
Qed.

(** The rank printed for a state with a row in the year. *)
Lemma update_ranking_value (df : list RateRecord) (state_name : string)
    (year : Z) (r : RateRecord) :
  PyStr.truthy state_name = true →
  state_row df state_name year = Some r →
  update_ranking df (Some state_name) year
  = ranking_line df year
      (greater_in_year df (Rate r) year
       + (tied_in_year df (Rate r) year + 1) / 2).
Proof.
  intros Hname Hrow.
  rewrite (update_ranking_unfold df state_name year Hname), Hrow.
  cbn [fmap option_fmap option_map]. f_equal.
  apply rank_descending_value. by eapply state_row_rate_elem.
Qed.

(** X17. Ranks follow the rates: for two states with rows in the
    year, the ranks printed are between 1 and the number of rows of
    the year, a state with a strictly greater rate gets a strictly
    smaller rank, and states with equal rates get the same rank. *)
Theorem update_ranking_order (df : list RateRecord) (a b : string) (year : Z)
    (ra rb : RateRecord) :
  PyStr.truthy a = true → PyStr.truthy b = true →
  state_row df a year = Some ra → state_row df b year = Some rb →
  ∃ ka kb,
    update_ranking df (Some a) year = ranking_line df year ka
    ∧ update_ranking df (Some b) year = ranking_line df year kb
    ∧ (1 ≤ ka ≤ Z.of_nat (length (rows_of_year df year)))%Z
    ∧ ((Rate rb < Rate ra)%Q → (ka < kb)%Z)
    ∧ ((Rate ra == Rate rb)%Q → ka = kb).
Proof.
  intros Ha Hb Hra Hrb.
  exists (greater_in_year df (Rate ra) year
          + (tied_in_year df (Rate ra) year + 1) / 2)%Z,
         (greater_in_year df (Rate rb) year
          + (tied_in_year df (Rate rb) year + 1) / 2)%Z.
  split; [by apply update_ranking_value|].
  split; [by apply update_ranking_value|].
  unfold greater_in_year, tied_in_year.
  set (col := Rate <$> rows_of_year df year).
  assert (length (rows_of_year df year) = length col) as ->
    by (unfold col; by rewrite length_fmap).
  pose proof (count_pos (λ y, Qeq_bool y (Rate ra)) col (Rate ra)
                (state_row_rate_elem df a year ra Hra) (Qeq_bool_refl _)) as Hta.
  pose proof (count_pos (λ y, Qeq_bool y (Rate rb)) col (Rate rb)
                (state_row_rate_elem df b year rb Hrb) (Qeq_bool_refl _)) as Htb.
  pose proof (count_nonneg (λ y, Pandas.Qltb (Rate ra) y) col) as Hga.
  pose proof (count_nonneg (λ y, Pandas.Qltb (Rate rb) y) col) as Hgb.
  split_and!.
  - pose proof (Z.div_pos (Pandas.count (λ y, Qeq_bool y (Rate ra)) col + 1) 2).
    assert (1 ≤ (Pandas.count (λ y, Qeq_bool y (Rate ra)) col + 1) / 2)%Z
      by (apply Z.div_le_lower_bound; lia).
    lia.
  - pose proof (count_add_le (λ y, Pandas.Qltb (Rate ra) y)
                  (λ y, Qeq_bool y (Rate ra)) (λ _, true) col) as Hsum.
    rewrite count_all in Hsum.
    assert ((Pandas.count (λ y, Qeq_bool y (Rate ra)) col + 1) / 2
            ≤ Pandas.count (λ y, Qeq_bool y (Rate ra)) col)%Z
      by (apply Z.div_le_upper_bound; lia).
    enough (Pandas.count (λ y, Pandas.Qltb (Rate ra) y) col
            + Pandas.count (λ y, Qeq_bool y (Rate ra)) col
            ≤ Z.of_nat (length col))%Z by lia.
    apply Hsum; [done|done|].
    intros y Hy. apply Qltb_true in Hy.
    destruct (Qeq_bool y (Rate ra)) eqn:Heq; [|done].
    apply Qeq_bool_iff in Heq. lra.
  - intros Hlt.
    pose proof (count_add_le (λ y, Pandas.Qltb (Rate ra) y)
                  (λ y, Qeq_bool y (Rate ra))
                  (λ y, Pandas.Qltb (Rate rb) y) col) as Hsum.
    assert ((Pandas.count (λ y, Qeq_bool y (Rate ra)) col + 1) / 2
            ≤ Pandas.count (λ y, Qeq_bool y (Rate ra)) col)%Z
      by (apply Z.div_le_upper_bound; lia).
    assert (1 ≤ (Pandas.count (λ y, Qeq_bool y (Rate rb)) col + 1) / 2)%Z
      by (apply Z.div_le_lower_bound; lia).
    enough (Pandas.count (λ y, Pandas.Qltb (Rate ra) y) col
            + Pandas.count (λ y, Qeq_bool y (Rate ra)) col
            ≤ Pandas.count (λ y, Pandas.Qltb (Rate rb) y) col)%Z by lia.
    apply Hsum.
    + intros y Hy. apply Qltb_true in Hy. apply Qltb_true. lra.
    + intros y Hy. apply Qeq_bool_iff in Hy. apply Qltb_true. lra.
    + intros y Hy. apply Qltb_true in Hy.
      destruct (Qeq_bool y (Rate ra)) eqn:Heq; [|done].
      apply Qeq_bool_iff in Heq. lra.
  - intros Heq.
    rewrite (count_ext (λ y, Pandas.Qltb (Rate ra) y)
               (λ y, Pandas.Qltb (Rate rb) y)).
    + rewrite (count_ext (λ y, Qeq_bool y (Rate ra))
                 (λ y, Qeq_bool y (Rate rb))); [done|].
      intros y. by rewrite Heq.
    + intros y. destruct (Pandas.Qltb (Rate rb) y) eqn:Hy.
      * apply Qltb_true in Hy. apply Qltb_true. lra.
      * apply Qltb_false in Hy. apply Qltb_false. lra.
Qed.

Lemma update_ranking_order_witness :
  ∃ ka kb,
    update_ranking tied_year (Some "Texas") 2001 = ranking_line tied_year 2001 ka
    ∧ update_ranking tied_year (Some "Louisiana") 2001
      = ranking_line tied_year 2001 kb
    ∧ (1 ≤ ka ≤ Z.of_nat (length (rows_of_year tied_year 2001)))%Z
    ∧ ((11.5 < 12)%Q → (ka < kb)%Z)
    ∧ ((12 == 11.5)%Q → ka = kb).
Proof.
  apply (update_ranking_order tied_year "Texas" "Louisiana" 2001
           (example_row "Texas" "TX" 2001 12)
           (example_row "Louisiana" "LA" 2001 11.5%Q)); reflexivity.
Defined.

(** ** More on the band classifier *)

Ltac band_places i j :=
  exists i, j; split_and!; [reflexivity|reflexivity|lia].

(** X18. The classifier keeps the order of the rates: of two rates
    the greater is never put in an earlier band of [BAND_ORDER]. *)
Theorem get_rate_band_monotone (r1 r2 : Q) :
  (r1 <= r2)%Q →
  ∃ i j, BAND_ORDER !! i = Some (get_rate_band r1)
         ∧ BAND_ORDER !! j = Some (get_rate_band r2) ∧ i ≤ j.
Proof.
  intros Hle. unfold get_rate_band.
  repeat (destruct (Qlt_le_dec r1 _));
    repeat (destruct (Qlt_le_dec r2 _); try lra);
    first [ band_places 0 0 | band_places 0 1 | band_places 0 2
          | band_places 0 3 | band_places 0 4 | band_places 0 5
          | band_places 1 1 | band_places 1 2 | band_places 1 3
          | band_places 1 4 | band_places 1 5 | band_places 2 2
          | band_places 2 3 | band_places 2 4 | band_places 2 5
          | band_places 3 3 | band_places 3 4 | band_places 3 5
          | band_places 4 4 | band_places 4 5 | band_places 5 5 ].
Qed.

Lemma get_rate_band_monotone_witness :
  ∃ i j, BAND_ORDER !! i = Some (get_rate_band 9.99%Q)
         ∧ BAND_ORDER !! j = Some (get_rate_band 30) ∧ i ≤ j.
Proof. apply get_rate_band_monotone. by vm_compute. Defined.

(** ** Regional chart *)

(** The double nearest to 0.1, and the text of a bar: the double
    nearest to 14.35 lies below 14.35, so [f"{x:.1f}"] prints it as
    14.3, while [round(1)] multiplies by 10 first, gets 143.5 and
    gives the double nearest to 14.4. *)
Example round_1_scales_first :
  to_double 0.1 = (3602879701896397 # 36028797018963968)%Q
  ∧ to_double (to_double 14.35 * 10) = (287 # 2)%Q
  ∧ round_1 (to_double 14.35) = to_double 14.4
  ∧ format_1f (to_double 14.35) = "14.3".
Proof. by vm_compute. Qed.

Lemma state_row_filter (df : list RateRecord) (state_name : string) (year : Z) :
  filter (λ r, State r = state_name ∧ Year r = year) df
  = filter (λ r, State r = state_name) (rows_of_year df year).
Proof. unfold rows_of_year. by rewrite list_filter_filter. Qed.

Lemma sort_by_rate_sorted (l : list RateRecord) :
  StronglySorted (λ a b, Qle_bool (Rate a) (Rate b) = true)
    (Pandas.sort_by (λ a b, Qle_bool (Rate a) (Rate b)) l).
Proof.
  apply (sort_by_StronglySorted (λ a b, Qle_bool (Rate a) (Rate b))).
  - intros a b Hab. apply Qle_bool_iff.
    destruct (Qlt_le_dec (Rate a) (Rate b)) as [Hlt|Hle]; [|done].
    assert (Qle_bool (Rate a) (Rate b) = true) by (apply Qle_bool_iff; lra).
    congruence.
  - intros a b c Hab Hbc. apply Qle_bool_iff.
    apply Qle_bool_iff in Hab, Hbc. lra.
Qed.

(** X19. For a selected state with a row in the selected year the
    regional chart has one bar per row of the year in the region of
    that state, the bars in ascending order of rate; the selected
    state is among them, and a bar is highlighted exactly when it is
    a bar of the selected state.  Rates, states, colours and texts
    are lists of one length. *)
Theorem update_regional_chart_bars (df : list RateRecord) (state_name : string)
    (year : Z) (first : RateRecord) :
  PyStr.truthy state_name = true →
  state_row df state_name year = Some first →
  ∃ bar,
    regional_traces (update_regional_chart df (Some state_name) year) = [bar]
    ∧ regional_title (update_regional_chart df (Some state_name) year)
      = Some (Region first +:+ " (" +:+ PyStr.of_int year +:+ ")")
    ∧ StronglySorted Qle (bar_x bar)
    ∧ zip (bar_y bar) (bar_x bar)
      ≡ₚ (λ r, (State r, Rate r))
           <$> filter (λ r, Region r = Region first ∧ Year r = year) df
    ∧ state_name ∈ bar_y bar
    ∧ (∀ i st, bar_y bar !! i = Some st →
         bar_marker_color bar !! i
         = Some (if decide (st = state_name) then ACCENT_CYAN else "#adb5bd"))
    ∧ length (bar_y bar) = length (bar_x bar)
    ∧ length (bar_marker_color bar) = length (bar_x bar)
    ∧ length (bar_text bar) = length (bar_x bar).
Proof.
  intros Hname Hrow. unfold update_regional_chart.
  rewrite Hname. cbn [negb]. cbv zeta.
  rewrite state_row_filter.
  unfold state_row in Hrow.
  destruct (filter (λ r, State r = state_name) (rows_of_year df year))
    as [|first' rest] eqn:Hdata; [done|].
  injection Hrow as ->.
  set (in_region := filter (λ r, Region r = Region first ∧ Year r = year) df).
  set (df_region := Pandas.sort_by (λ a b, Qle_bool (Rate a) (Rate b)) in_region).
  assert (df_region ≡ₚ in_region) as Hperm by apply sort_by_Permutation.
  assert (first ∈ in_region) as Hfirst.
  { assert (first ∈ filter (λ r, State r = state_name) (rows_of_year df year))
      as Hin by (rewrite Hdata; by left).
    apply list_elem_of_filter in Hin as [_ Hin].
    apply list_elem_of_filter in Hin as [Hyear Hin].
    by apply list_elem_of_filter. }
  assert (State first = state_name) as Hstate.
  { assert (first ∈ filter (λ r, State r = state_name) (rows_of_year df year))
      as Hin by (rewrite Hdata; by left).
    by apply list_elem_of_filter in Hin as [Hst _]. }
  eexists. split; [reflexivity|].
  cbn [regional_title bar_x bar_y bar_marker_color bar_text].
  split_and!.
  - done.
  - eapply StronglySorted_fmap; [|apply sort_by_rate_sorted].
    intros a b Hab. by apply Qle_bool_iff.
  - by rewrite zip_fmap_pair, Hperm.
  - rewrite <- Hstate. apply list_elem_of_fmap_2. by rewrite Hperm.
  - intros i st Hi. rewrite list_lookup_fmap in Hi. rewrite list_lookup_fmap.
    destruct (df_region !! i) as [r|]; [|done].
    cbn in Hi. injection Hi as <-. done.
  - by rewrite !length_fmap.
  - by rewrite !length_fmap.
  - by rewrite !length_fmap.
Qed.

Lemma update_regional_chart_bars_witness :
  ∃ bar,
    regional_traces (update_regional_chart tied_year (Some "Louisiana") 2001)
    = [bar]
    ∧ head (bar_y bar) = Some "Louisiana"
    ∧ StronglySorted Qle (bar_x bar).
Proof.
  destruct (update_regional_chart_bars tied_year "Louisiana" 2001
              (example_row "Louisiana" "LA" 2001 11.5%Q) eq_refl eq_refl)
    as (bar & Hbar & _ & Hsorted & _).
  exists bar. split; [exact Hbar|]. split; [|exact Hsorted].
  vm_compute in Hbar. by injection Hbar as <-.
Defined.

Lemma ranking_line_nonempty (df : list RateRecord) (year rank : Z) :
  ranking_line df year rank ≠ "".
Proof. unfold ranking_line. discriminate. Qed.

Lemma update_regional_chart_has_bar (df : list RateRecord)
    (state_name : string) (year : Z) (first : RateRecord) :
  PyStr.truthy state_name = true →
  state_row df state_name year = Some first →
  ∃ bar, regional_traces (update_regional_chart df (Some state_name) year)
         = [bar].
Proof.
  intros Hname Hrow. unfold update_regional_chart.
  rewrite Hname. cbn [negb]. cbv zeta. rewrite state_row_filter.
  unfold state_row in Hrow.
  destruct (filter (λ r, State r = state_name) (rows_of_year df year));
    [done|].
  by eexists.
Qed.

(** X20. Without a state the regional chart asks to select one; for
    a state without a row in the selected year it is empty, with no
    bars, annotation or title.  The chart has bars exactly when the
    ranking line is not empty. *)
Theorem update_regional_chart_empty (df : list RateRecord) (state_name : string)
    (year : Z) :
  PyStr.truthy state_name = true →
  regional_annotations (update_regional_chart df None year) = ["Select a state"]
  ∧ update_regional_chart df (Some "") year = update_regional_chart df None year
  ∧ (state_row df state_name year = None →
       update_regional_chart df (Some state_name) year
       = {| regional_annotations := []; regional_traces := [];
            regional_title := None; regional_xaxis_range := None |})
  ∧ (regional_traces (update_regional_chart df (Some state_name) year) = []
     ↔ update_ranking df (Some state_name) year = "").
Proof.
  intros Hname.
  assert (state_row df state_name year = None →
          update_regional_chart df (Some state_name) year
          = {| regional_annotations := []; regional_traces := [];
               regional_title := None; regional_xaxis_range := None |}) as Hnone.
  { intros Hrow. unfold update_regional_chart. rewrite Hname. cbn [negb].
    cbv zeta. rewrite state_row_filter. unfold state_row in Hrow.
    by destruct (filter _ (rows_of_year df year)). }
  split_and!; [reflexivity|reflexivity|exact Hnone|].
  destruct (state_row df state_name year) as [first|] eqn:Hrow.
  - destruct (update_regional_chart_has_bar df state_name year first Hname Hrow)
      as (bar & ->).
    rewrite (update_ranking_value df state_name year first Hname Hrow).
    split; [done|]. intros Hline. by apply ranking_line_nonempty in Hline.
  - rewrite (Hnone eq_refl).
    rewrite (update_ranking_unfold df state_name year Hname), Hrow. done.
Qed.

Lemma update_regional_chart_empty_witness :
  regional_traces (update_regional_chart tied_year (Some "Ohio") 2001) = []
  ↔ update_ranking tied_year (Some "Ohio") 2001 = "".
Proof. by apply (update_regional_chart_empty tied_year "Ohio" 2001). Defined.

(** ** Trend chart *)

(** X21. For a selected state the trend chart has two lines: the
    national series, the same whatever state is selected, and the
    line of the state, whose points are the (year, rate) pairs of the
    rows the detail statistics are computed from.  A state without
    rows still gets the chart, with an empty line, not the prompt
    shown when nothing is selected. *)
Theorem update_state_trend_lines (df : list RateRecord) (usa : list UsaRecord)
    (state_name : string) :
  PyStr.truthy state_name = true →
  ∃ national line,
    update_state_trend df usa (Some state_name)
    = {| trend_annotations := []; trend_traces := [national; line];
         trend_yaxis_range := Some (0, 35)%Q; trend_axes_visible := true |}
    ∧ (∀ other, PyStr.truthy other = true →
         head (trend_traces (update_state_trend df usa (Some other)))
         = Some national)
    ∧ zip (scatter_x national) (scatter_y national)
      = (λ r, (usa_Year r, usa_Rate r)) <$> usa
    ∧ zip (scatter_x line) (scatter_y line)
      ≡ₚ (λ r, (Year r, Rate r)) <$> state_series df state_name
    ∧ ((∀ r, r ∈ df → State r ≠ state_name) →
         scatter_x line = [] ∧ scatter_y line = [])
    ∧ trend_traces (update_state_trend df usa None) = []
    ∧ trend_annotations (update_state_trend df usa None) = ["Select a state"].
Proof.
  intros Hname. unfold update_state_trend. rewrite Hname. cbn [negb]. cbv zeta.
  eexists _, _. split; [reflexivity|].
  cbn [scatter_x scatter_y trend_traces trend_annotations].
  split_and!; try reflexivity.
  - intros other ->. reflexivity.
  - apply zip_fmap_pair.
  - rewrite zip_fmap_pair. unfold state_series.
    by rewrite sort_by_Permutation.
  - intros Hnone.
    assert (filter (λ r, State r = state_name) df = []) as ->; [|done].
    destruct (filter _ df) as [|r rest] eqn:Hf; [done|].
    assert (r ∈ filter (λ r, State r = state_name) df) as Hr
      by (rewrite Hf; by left).
    apply list_elem_of_filter in Hr as [Hstate Hr]. by destruct (Hnone r Hr).
Qed.

Lemma update_state_trend_lines_witness :
  ∃ national line,
    update_state_trend three_years [] (Some "Texas")
    = {| trend_annotations := []; trend_traces := [national; line];
         trend_yaxis_range := Some (0, 35)%Q; trend_axes_visible := true |}
    ∧ scatter_x line = [2001; 2002; 2003]%Z.
Proof.
  destruct (update_state_trend_lines three_years [] "Texas" eq_refl)
    as (national & line & Heq & _).
  exists national, line. split; [exact Heq|].
  vm_compute in Heq. by injection Heq as _ <-.
Defined.

(** ** Loading the frames *)

Lemma filter_bind {A B : Type} (P : B → Prop) `{∀ x, Decision (P x)}
    (f : A → list B) (l : list A) :
  filter P (l ≫= f) = l ≫= (λ x, filter P (f x)).
Proof.
  induction l as [|x l IH]; [done|]. cbn. by rewrite filter_app, IH.
Qed.

Lemma filter_fmap_pre {A B : Type} (P : B → Prop) `{∀ x, Decision (P x)}
    (f : A → B) (l : list A) :
  filter P (f <$> l) = f <$> filter (λ x, P (f x)) l.
Proof.
  induction l as [|x l IH]; [done|]. cbn [fmap list_fmap].
  destruct (decide (P (f x))) as [Hx|Hx].
  - rewrite !filter_cons_True by done. cbn. by rewrite IH.
  - by rewrite !filter_cons_False by done.
Qed.

Lemma filter_const {A : Type} (P : Prop) `{Decision P} (b : bool) (l : list A) :
  bool_decide P = b → filter (λ _, P) l = if b then l else [].
Proof.
  intros <-. induction l as [|x l IH]; [by destruct (bool_decide P)|].
  destruct (decide P) as [HP|HP].
  - rewrite filter_cons_True by done.
    rewrite bool_decide_eq_true_2 in * by done. by rewrite IH.
  - rewrite filter_cons_False by done.
    rewrite bool_decide_eq_false_2 in * by done. exact IH.
Qed.

Lemma length_bind_const {A B : Type} (f : A → list B) (l : list A) (n : nat) :
  (∀ x, length (f x) = n) → length (l ≫= f) = length l * n.
Proof.
  intros Hf. induction l as [|x l IH]; [done|].
  cbn. rewrite length_app, Hf, IH. lia.
Qed.

Lemma focus_years : filter (λ y, (2000 ≤ y)%Z) year_columns = seqZ 2000 24.
Proof. reflexivity. Qed.

(** The rows of the focus frame: for each year from 2000 on, in
    order, a row for each state of the table. *)
Lemma suicide_focus_rows (df : list WideRow) :
  suicide_focus df
  = (year ← seqZ 2000 24;
     (λ w, long_row w year) <$> filter (λ w, wide_State w ≠ "U.S.A.") df).
Proof.
  unfold suicide_focus, load_suicide_rates, melt_states. cbn [fst].
  rewrite filter_bind, <- focus_years.
  induction year_columns as [|y years IH]; [done|].
  cbn [mbind list_bind]. rewrite filter_fmap_pre. cbn [long_Year long_row].
  destruct (decide (2000 ≤ y)%Z) as [Hy|Hy].
  - rewrite (filter_cons_True (λ y, (2000 ≤ y)%Z)) by done.
    cbn [mbind list_bind]. rewrite <- IH.
    by rewrite (filter_const _ true) by (by apply bool_decide_eq_true).
  - rewrite (filter_cons_False (λ y, (2000 ≤ y)%Z)) by done.
    rewrite <- IH.
    by rewrite (filter_const _ false) by (by apply bool_decide_eq_false).
Qed.

Lemma suicide_focus_elem (df : list WideRow) (r : LongRow) :
  r ∈ suicide_focus df →
  ∃ w year, r = long_row w year ∧ w ∈ df ∧ wide_State w ≠ "U.S.A."
            ∧ (2000 ≤ year ≤ 2023)%Z.
Proof.
  rewrite suicide_focus_rows.
  intros (year & Hr & Hyear)%list_elem_of_bind.
  apply list_elem_of_fmap in Hr as (w & -> & Hw).
  apply list_elem_of_filter in Hw as [Hstate Hw].
  apply elem_of_seqZ in Hyear.
  exists w, year. split_and!; try done; lia.
Qed.

(** X22. The invariants of the loaded frame: every row of the focus
    frame belongs to a state of the table other than [U.S.A.], has a
    year from 2000 to 2023, the rate of its state in that year, the
    band the classifier gives that rate, the abbreviation and region
    name the tables give (or none); and the frame has 24 rows for each
    state row of the table. *)
Theorem suicide_focus_invariants (df : list WideRow) :
  (∀ r, r ∈ suicide_focus df →
     (2000 ≤ long_Year r ≤ 2023)%Z
     ∧ long_State r ≠ "U.S.A."
     ∧ long_Rate_Band r = get_rate_band (long_Rate r)
     ∧ long_Abbrev r = STATE_ABBREV !! long_State r
     ∧ long_Region r = long_Region_Code r ≫= (REGION_NAMES !!.)
     ∧ ∃ w, w ∈ df ∧ wide_State w = long_State r
            ∧ wide_Region_Code w = long_Region_Code r
            ∧ long_Rate r = wide_cell w (long_Year r))
  ∧ length (suicide_focus df)
    = 24 * length (filter (λ w, wide_State w ≠ "U.S.A.") df).
Proof.
  split.
  - intros r (w & year & -> & Hw & Hstate & Hyear)%suicide_focus_elem.
    cbn [long_row long_Year long_State long_Rate long_Rate_Band long_Abbrev
         long_Region long_Region_Code].
    split_and!; try done; try lia.
    by exists w.
  - rewrite suicide_focus_rows.
    rewrite (length_bind_const _ _
               (length (filter (λ w, wide_State w ≠ "U.S.A.") df))).
    + rewrite length_seqZ. lia.
    + intros year. by rewrite length_fmap.
Qed.

Lemma bind_singleton_fmap {A B : Type} (f : A → B) (l : list A) :
  l ≫= (λ x, [f x]) = f <$> l.
Proof. induction l as [|x l IH]; [done|]. cbn. by rewrite IH. Qed.

Lemma filter_filter_state (df : list WideRow) (state_name : string) :
  state_name ≠ "U.S.A." →
  filter (λ w, wide_State w = state_name)
    (filter (λ w, wide_State w ≠ "U.S.A.") df)
  = filter (λ w, wide_State w = state_name) df.
Proof.
  intros Hstate. rewrite list_filter_filter.
  apply list_filter_iff. intros w. split; [tauto|].
  intros Hw. split; [done|]. by rewrite Hw.
Qed.

Lemma usa_focus_rows (df : list WideRow) :
  usa_focus df
  = (year ← seqZ 2000 24;
     (λ w, {| usa_State := wide_State w; usa_Year := year;
              usa_Rate := wide_cell w year |})
       <$> filter (λ w, wide_State w = "U.S.A.") df).
Proof.
  unfold usa_focus, load_suicide_rates, melt_usa. cbn [snd].
  rewrite filter_bind, <- focus_years.
  induction year_columns as [|y years IH]; [done|].
  cbn [mbind list_bind]. rewrite filter_fmap_pre. cbn [usa_Year].
  destruct (decide (2000 ≤ y)%Z) as [Hy|Hy].
  - rewrite (filter_cons_True (λ y, (2000 ≤ y)%Z)) by done.
    cbn [mbind list_bind]. rewrite <- IH.
    by rewrite (filter_const _ true) by (by apply bool_decide_eq_true).
  - rewrite (filter_cons_False (λ y, (2000 ≤ y)%Z)) by done.
    rewrite <- IH.
    by rewrite (filter_const _ false) by (by apply bool_decide_eq_false).
Qed.

(** The rows of a state that has one row in the table. *)
Lemma suicide_focus_of_state (df : list WideRow) (state_name : string)
    (w : WideRow) :
  filter (λ w, wide_State w = state_name) df = [w] →
  state_name ≠ "U.S.A." →
  filter (λ r, long_State r = state_name) (suicide_focus df)
  = long_row w <$> seqZ 2000 24.
Proof.
  intros Hrow Hstate. rewrite suicide_focus_rows, filter_bind.
  rewrite <- bind_singleton_fmap. apply list_bind_ext; [|done].
  intros year. rewrite filter_fmap_pre. cbn [long_State long_row].
  by rewrite filter_filter_state, Hrow.
Qed.

(** X23. A state with one row in the table has exactly 24 rows in
    the focus frame, one for each year from 2000 to 2023 and in that
    order, each with the rate of the table for its year; likewise the
    national frame when the table has one [U.S.A.] row. *)
Theorem suicide_focus_state_rows (df : list WideRow) (state_name : string)
    (w : WideRow) :
  filter (λ w, wide_State w = state_name) df = [w] →
  (state_name ≠ "U.S.A." →
     filter (λ r, long_State r = state_name) (suicide_focus df)
     = long_row w <$> seqZ 2000 24
     ∧ long_Year <$> filter (λ r, long_State r = state_name) (suicide_focus df)
       = seqZ 2000 24)
  ∧ (state_name = "U.S.A." →
     usa_Year <$> usa_focus df = seqZ 2000 24
     ∧ usa_Rate <$> usa_focus df = wide_cell w <$> seqZ 2000 24).
Proof.
  intros Hrow. split.
  - intros Hstate. rewrite (suicide_focus_of_state df state_name w Hrow Hstate).
    split; [done|]. rewrite <- list_fmap_compose. by apply list_fmap_id.
  - intros ->. rewrite usa_focus_rows, Hrow.
    rewrite (bind_singleton_fmap
               (λ year, {| usa_State := wide_State w; usa_Year := year;
                           usa_Rate := wide_cell w year |})).
    rewrite <- !list_fmap_compose. split; [by apply list_fmap_id|done].
Qed.

Lemma suicide_focus_state_rows_witness :
  long_Year <$> filter (λ r, long_State r = "Ohio") (suicide_focus example_table)
  = seqZ 2000 24
  ∧ usa_Year <$> usa_focus example_table = seqZ 2000 24.
Proof.
  split.
  - assert ("Ohio" ≠ "U.S.A.") as Hne by done.
    exact (proj2 (proj1 (suicide_focus_state_rows example_table "Ohio"
             {| wide_State := "Ohio"; wide_Region_Code := Some "ENC";
                wide_cell := λ year, (inject_Z (2100 - year) / 10)%Q |}
             eq_refl) Hne)).
  - exact (proj1 (proj2 (suicide_focus_state_rows example_table "U.S.A."
             {| wide_State := "U.S.A."; wide_Region_Code := None;
                wide_cell := λ year, (inject_Z (year - 1890) / 10)%Q |}
             eq_refl) eq_refl)).
Defined.

Lemma as_record_fields (x : LongRow) (y : RateRecord) :
  as_record x = Some y →
  State y = long_State x ∧ Year y = long_Year x ∧ Rate y = long_Rate x
  ∧ Rate_Band y = long_Rate_Band x
  ∧ long_Abbrev x = Some (Abbrev y) ∧ long_Region x = Some (Region y).
Proof.
  unfold as_record. intros Hxy.
  destruct (long_Region x) as [region|]; [|done].
  destruct (long_Abbrev x) as [abbrev|]; [|done].
  cbn in Hxy. by injection Hxy as <-.
Qed.

Lemma Forall2_fmap_eq {A B C : Type} (f : A → C) (g : B → C)
    (l : list A) (k : list B) :
  Forall2 (λ a b, f a = g b) l k → f <$> l = g <$> k.
Proof. induction 1 as [|a b l k Hab _ IH]; [done|]. cbn. by rewrite Hab, IH. Qed.

Lemma fmap_pointwise {A B : Type} (f g : A → B) (l : list A) :
  (∀ x, f x = g x) → f <$> l = g <$> l.
Proof. intros Hfg. induction l as [|x l IH]; [done|]. cbn. by rewrite Hfg, IH. Qed.

Lemma years_seqZ_sorted (rs : list RateRecord) (m n : Z) :
  Year <$> rs = seqZ m n →
  StronglySorted (λ a b, (Year a <=? Year b)%Z = true) rs
  ∧ Forall (λ r, (m ≤ Year r)%Z) rs.
Proof.
  revert m n. induction rs as [|r rs IH]; intros m n Hyears.
  - split; constructor.
  - destruct (decide (0 < n)%Z) as [Hn|Hn].
    + rewrite seqZ_cons in Hyears by done. cbn in Hyears.
      injection Hyears as Hr Hrs.
      destruct (IH _ _ Hrs) as [Hsorted Hall]. split.
      * constructor; [done|].
        eapply Forall_impl; [exact Hall|]. intros r' Hr'. cbv beta in Hr'.
        apply Z.leb_le. lia.
      * constructor; [lia|].
        eapply Forall_impl; [exact Hall|]. intros r' Hr'. cbv beta in Hr'. lia.
    + exfalso. assert (length (Year <$> (r :: rs)) = length (seqZ m n)) as Hlen
        by (by rewrite Hyears).
      rewrite length_seqZ in Hlen. cbn in Hlen. lia.
Qed.

(** X24. On a loaded frame the detail panel never fails: for a state
    with one row in the table, the series the panel works on has the
    24 years 2000 to 2023 in order, each one year after the one
    before, with the rates of the table, and the panel shows its
    figures. *)
Theorem update_state_stats_on_loaded (df : list WideRow)
    (recs : list RateRecord) (Series_mean : list Q → Q) (state_name : string)
    (w : WideRow) :
  mapM as_record (suicide_focus df) = Some recs →
  PyStr.truthy state_name = true → state_name ≠ "U.S.A." →
  filter (λ w, wide_State w = state_name) df = [w] →
  Year <$> state_series recs state_name = seqZ 2000 24
  ∧ Rate <$> state_series recs state_name = wide_cell w <$> seqZ 2000 24
  ∧ consecutive_years (state_series recs state_name)
  ∧ ∃ rep, update_state_stats recs Series_mean (Some state_name)
           = Returns (Details state_name rep).
Proof.
  intros Hrecs Hname Hstate Hrow.
  apply mapM_Some_1 in Hrecs.
  pose proof (Forall2_filter _ (λ r, long_State r = state_name)
                (λ r, State r = state_name) _ _
                (λ x y Hxy, ltac:(apply as_record_fields in Hxy
                                    as (-> & _); reflexivity))
                Hrecs) as Hstate_rows.
  rewrite (suicide_focus_of_state df state_name w Hrow Hstate) in Hstate_rows.
  set (rs := filter (λ r, State r = state_name) recs) in *.
  assert (Year <$> rs = seqZ 2000 24) as Hyears.
  { symmetry. rewrite <- (list_fmap_id (seqZ 2000 24)) at 1.
    rewrite (fmap_pointwise id (long_Year ∘ long_row w)) by done.
    rewrite list_fmap_compose. apply Forall2_fmap_eq.
    eapply Forall2_impl; [exact Hstate_rows|].
    intros x y Hxy. by apply as_record_fields in Hxy as (_ & -> & _). }
  assert (Rate <$> rs = wide_cell w <$> seqZ 2000 24) as Hrates.
  { symmetry.
    rewrite (fmap_pointwise (wide_cell w) (long_Rate ∘ long_row w)) by done.
    rewrite list_fmap_compose. apply Forall2_fmap_eq.
    eapply Forall2_impl; [exact Hstate_rows|].
    intros x y Hxy. by apply as_record_fields in Hxy as (_ & _ & -> & _). }
  assert (state_series recs state_name = rs) as Hseries.
  { unfold state_series. fold rs. apply sort_by_sorted.
    by apply (years_seqZ_sorted rs 2000 24). }
  rewrite Hseries.
  assert (∀ i r, rs !! i = Some r → Year r = (2000 + Z.of_nat i)%Z) as Hat.
  { intros i r Hi.
    assert ((Year <$> rs) !! i = Some (Year r)) as Hy
      by (by rewrite list_lookup_fmap, Hi).
    rewrite Hyears in Hy. by apply lookup_seqZ in Hy as [-> _]. }
  split_and!; [done|done| |].
  - intros i prev cur Hprev Hcur.
    rewrite (Hat _ _ Hprev), (Hat _ _ Hcur). lia.
  - assert (length rs = 24) as Hlen.
    { rewrite <- (length_fmap Year), Hyears, length_seqZ. lia. }
    destruct (rs !! 0) as [r0|] eqn:H0;
      [|apply lookup_ge_None in H0; lia].
    destruct (rs !! 1) as [r1|] eqn:H1;
      [|apply lookup_ge_None in H1; lia].
    rewrite <- Hseries in H0, H1.
    destruct (update_state_stats_two_rows recs Series_mean state_name r0 r1
                Hname H0 H1)
      as (lo & hi & inc & dec & row_lo & row_hi & row_inc & row_dec & Hall).
    eexists. apply Hall.
Qed.

Lemma update_state_stats_on_loaded_witness :
  ∃ recs, mapM as_record (suicide_focus example_table) = Some recs
    ∧ Year <$> state_series recs "Texas" = seqZ 2000 24
    ∧ ∃ rep, update_state_stats recs mean_left_to_right (Some "Texas")
             = Returns (Details "Texas" rep).
Proof.
  destruct (mapM as_record (suicide_focus example_table)) as [recs|] eqn:Hrecs;
    [|by vm_compute in Hrecs].
  exists recs. split; [done|].
  assert ("Texas" ≠ "U.S.A.") as Hne by done.
  destruct (update_state_stats_on_loaded example_table recs mean_left_to_right
              "Texas"
              {| wide_State := "Texas"; wide_Region_Code := Some "WSC";
                 wide_cell := λ year, (inject_Z (year - 1900) / 10)%Q |}
              Hrecs eq_refl Hne eq_refl) as (Hyears & _ & _ & Hrep).
  split; [exact Hyears|exact Hrep].
Defined.

(** X25. The rows the callbacks read from a loaded frame are well
    formed: each belongs to a state of the abbreviation table and
    carries the abbreviation of that table, its band is the band of
    its rate and one of [BAND_ORDER], its region is a name of the
    region table, and its year lies between 2000 and 2023. *)
Theorem loaded_records_well_formed (df : list WideRow)
    (recs : list RateRecord) (r : RateRecord) :
  mapM as_record (suicide_focus df) = Some recs → r ∈ recs →
  STATE_ABBREV !! State r = Some (Abbrev r)
  ∧ Rate_Band r = get_rate_band (Rate r)
  ∧ Rate_Band r ∈ BAND_ORDER
  ∧ (∃ code, REGION_NAMES !! code = Some (Region r))
  ∧ (2000 ≤ Year r ≤ 2023)%Z
  ∧ State r ≠ "U.S.A.".
Proof.
  intros Hrecs Hr. apply mapM_Some_1 in Hrecs.
  apply list_elem_of_lookup in Hr as [i Hi].
  destruct (Forall2_lookup_r _ _ _ _ _ Hrecs Hi) as (x & Hx & Hxr).
  apply list_elem_of_lookup_2 in Hx.
  apply as_record_fields in Hxr as (-> & -> & -> & -> & Habbrev & Hregion).
  apply suicide_focus_elem in Hx as (w & year & -> & _ & Hstate & Hyear).
  cbn [long_row long_Year long_State long_Rate long_Rate_Band long_Abbrev
       long_Region long_Region_Code] in *.
  split_and!; try done; try lia.
  - apply get_rate_band_in_order.
  - destruct (wide_Region_Code w) as [code|]; [|done].
    by exists code.
Qed.

Lemma loaded_records_well_formed_witness :
  ∃ recs r, mapM as_record (suicide_focus example_table) = Some recs
    ∧ head recs = Some r
    ∧ STATE_ABBREV !! State r = Some (Abbrev r)
    ∧ Rate_Band r ∈ BAND_ORDER.
Proof.
  destruct (mapM as_record (suicide_focus example_table)) as [recs|] eqn:Hrecs;
    [|by vm_compute in Hrecs].
  destruct (head recs) as [r|] eqn:Hhead;
    [|vm_compute in Hrecs; injection Hrecs as <-; discriminate Hhead].
  exists recs, r. split; [done|]. split; [done|].
  destruct (loaded_records_well_formed example_table recs r Hrecs
              (head_Some_elem_of _ _ Hhead)) as (Habbrev & _ & Hband & _).
  by split.
Defined.
